(** * The DR planning agent of [backend/app/agents/planner.py]

    A shallow embedding of [DRPlanningAgent]: the grid situation analyzer,
    the target derivation, the cohort scorer, the greedy allocator and the
    confidence estimator, followed by the properties stated about them.

    Numbers.  Python's [int] and [float] values (JSON numbers) are embedded
    as exact rationals [Q]: arithmetic is the exact one, and [round(x, n)]
    is rounding half to even at [n] decimals of the exact value.  Equalities
    between numbers are therefore stated with [==] ([Qeq]). *)

From Stdlib Require Import ZArith QArith Qround Lqa Lia List String Ascii Bool.
From Stdlib Require Import Permutation Sorted.
Import ListNotations.

Open Scope Q_scope.

(** ** Python numeric builtins *)

Module Py.

(** [a < b] and [a <= b] as truth values. *)
Definition ltb (a b : Q) : bool := negb (Qle_bool b a).
Definition leb (a b : Q) : bool := Qle_bool a b.
Definition geb (a b : Q) : bool := Qle_bool b a.

(** [min(a, b)]: the first argument is kept unless the second is strictly
    smaller. *)
Definition min (a b : Q) : Q := if Qlt_le_dec b a then b else a.

(** [max(a, b)]: the first argument is kept unless the second is strictly
    larger. *)
Definition max (a b : Q) : Q := if Qlt_le_dec a b then b else a.

(** Nearest integer, ties to the even one. *)
Definition round_half_even (x : Q) : Z :=
  let f := Qfloor x in
  match Qcompare (x - inject_Z f) (1 # 2) with
  | Lt => f
  | Gt => (f + 1)%Z
  | Eq => if Z.even f then f else (f + 1)%Z
  end.

Definition pow10 (n : nat) : Q := inject_Z (10 ^ Z.of_nat n).

(** [round(x, ndigits)]. *)
Definition round (x : Q) (ndigits : nat) : Q :=
  inject_Z (round_half_even (x * pow10 ndigits)) / pow10 ndigits.

(** [sum(...)] over a list of numbers, starting from [0]. *)
Definition sum (l : list Q) : Q := fold_left Qplus l 0.

(** [len(...)] as a number. *)
Definition len {A} (l : list A) : Q := inject_Z (Z.of_nat (List.length l)).

End Py.

(** ** Facts about the numeric builtins *)

Lemma ltb_lt a b : Py.ltb a b = true <-> a < b.
Proof.
  unfold Py.ltb. rewrite negb_true_iff, <- not_true_iff_false, Qle_bool_iff.
  split; [apply Qnot_le_lt | apply Qlt_not_le].
Qed.

Lemma ltb_ge a b : Py.ltb a b = false <-> b <= a.
Proof. unfold Py.ltb. rewrite negb_false_iff. apply Qle_bool_iff. Qed.

Lemma leb_le a b : Py.leb a b = true <-> a <= b.
Proof. apply Qle_bool_iff. Qed.

Lemma geb_ge a b : Py.geb a b = true <-> b <= a.
Proof. apply Qle_bool_iff. Qed.

Lemma leb_gt a b : Py.leb a b = false <-> b < a.
Proof.
  unfold Py.leb. rewrite <- not_true_iff_false, Qle_bool_iff.
  split; [apply Qnot_le_lt | apply Qlt_not_le].
Qed.

Lemma min_le_l a b : Py.min a b <= a.
Proof. unfold Py.min. destruct (Qlt_le_dec b a); lra. Qed.

Lemma min_le_r a b : Py.min a b <= b.
Proof. unfold Py.min. destruct (Qlt_le_dec b a); lra. Qed.

Lemma min_glb a b c : c <= a -> c <= b -> c <= Py.min a b.
Proof. unfold Py.min. destruct (Qlt_le_dec b a); lra. Qed.

Lemma floor_bounds x : inject_Z (Qfloor x) <= x < inject_Z (Qfloor x) + 1.
Proof.
  split; [apply Qfloor_le|].
  pose proof (Qlt_floor x) as H. rewrite inject_Z_plus in H. exact H.
Qed.

(** The rounded integer is within one half of the argument. *)
Lemma round_half_even_near x :
  inject_Z (Py.round_half_even x) - (1 # 2) <= x
  /\ x <= inject_Z (Py.round_half_even x) + (1 # 2).
Proof.
  unfold Py.round_half_even.
  pose proof (floor_bounds x) as [Hl Hu].
  destruct (Qcompare_spec (x - inject_Z (Qfloor x)) (1 # 2)) as [E|L|G].
  - destruct (Z.even (Qfloor x)); rewrite ?inject_Z_plus;
      change (inject_Z 1) with 1; lra.
  - lra.
  - rewrite inject_Z_plus. change (inject_Z 1) with 1. lra.
Qed.

Lemma round_half_even_Z z : Py.round_half_even (inject_Z z) = z.
Proof.
  unfold Py.round_half_even. rewrite Qfloor_Z.
  destruct (Qcompare_spec (inject_Z z - inject_Z z) (1 # 2)) as [E|L|G];
    try lra; reflexivity.
Qed.

(** Rounding is monotone. *)
Lemma round_half_even_mono x y :
  x <= y -> (Py.round_half_even x <= Py.round_half_even y)%Z.
Proof.
  intros Hxy.
  pose proof (Qfloor_resp_le _ _ Hxy) as Hf.
  destruct (Z.eq_dec (Qfloor x) (Qfloor y)) as [E|N].
  - unfold Py.round_half_even. rewrite <- E.
    destruct (Qcompare_spec (x - inject_Z (Qfloor x)) (1 # 2)) as [E1|L1|G1];
    destruct (Qcompare_spec (y - inject_Z (Qfloor x)) (1 # 2)) as [E2|L2|G2];
      try lra; try lia; destruct (Z.even (Qfloor x)); lia.
  - assert (Py.round_half_even x <= Qfloor x + 1)%Z as H1.
    { unfold Py.round_half_even.
      destruct (Qcompare _ _); try lia. destruct (Z.even _); lia. }
    assert (Qfloor y <= Py.round_half_even y)%Z as H2.
    { unfold Py.round_half_even.
      destruct (Qcompare _ _); try lia. destruct (Z.even _); lia. }
    lia.
Qed.

Lemma round_half_even_comp x y :
  x == y -> Py.round_half_even x = Py.round_half_even y.
Proof.
  intros E. apply Z.le_antisymm; apply round_half_even_mono; lra.
Qed.

Lemma pow10_pos n : 0 < Py.pow10 n.
Proof.
  unfold Py.pow10. change 0 with (inject_Z 0). rewrite <- Zlt_Qlt.
  apply Z.pow_pos_nonneg; lia.
Qed.

#[export] Instance round_Proper : Proper (Qeq ==> eq ==> Qeq) Py.round.
Proof.
  intros x y E n ? <-. unfold Py.round.
  rewrite (round_half_even_comp (x * Py.pow10 n) (y * Py.pow10 n)).
  - reflexivity.
  - rewrite E. reflexivity.
Qed.

#[export] Instance min_Proper : Proper (Qeq ==> Qeq ==> Qeq) Py.min.
Proof.
  intros a a' Ea b b' Eb. unfold Py.min.
  destruct (Qlt_le_dec b a), (Qlt_le_dec b' a'); lra.
Qed.

#[export] Instance max_Proper : Proper (Qeq ==> Qeq ==> Qeq) Py.max.
Proof.
  intros a a' Ea b b' Eb. unfold Py.max.
  destruct (Qlt_le_dec a b), (Qlt_le_dec a' b'); lra.
Qed.

Lemma round_mono x y n : x <= y -> Py.round x n <= Py.round y n.
Proof.
  intros H. unfold Py.round.
  pose proof (pow10_pos n) as Hp.
  apply Qmult_le_compat_r.
  - rewrite <- Zle_Qle. apply round_half_even_mono.
    apply Qmult_le_compat_r; lra.
  - apply Qlt_le_weak, Qinv_lt_0_compat, Hp.
Qed.

(** Rounding to [n] decimals moves a number by at most half a unit of the
    last decimal. *)
Lemma round_near x n :
  Py.round x n - (1 # 2) / Py.pow10 n <= x
  /\ x <= Py.round x n + (1 # 2) / Py.pow10 n.
Proof.
  unfold Py.round.
  pose proof (pow10_pos n) as Hp.
  pose proof (round_half_even_near (x * Py.pow10 n)) as [Hl Hu].
  set (r := inject_Z (Py.round_half_even (x * Py.pow10 n))) in *.
  set (p := Py.pow10 n) in *.
  assert (forall a b, a <= b -> a / p <= b / p) as Hdiv.
  { intros a b Hab. apply Qmult_le_compat_r; [exact Hab|].
    apply Qlt_le_weak, Qinv_lt_0_compat, Hp. }
  assert (x * p / p == x) as Ex by (field; lra).
  apply Hdiv in Hl. apply Hdiv in Hu. rewrite Ex in Hl, Hu.
  assert ((r - (1 # 2)) / p == r / p - (1 # 2) / p) as El by (field; lra).
  assert ((r + (1 # 2)) / p == r / p + (1 # 2) / p) as Eu by (field; lra).
  rewrite El in Hl. rewrite Eu in Hu. split; assumption.
Qed.

(** A number that already has at most [n] decimals is left unchanged. *)
Lemma round_exact z n : Py.round (inject_Z z / Py.pow10 n) n == inject_Z z / Py.pow10 n.
Proof.
  unfold Py.round. pose proof (pow10_pos n) as Hp.
  rewrite (round_half_even_comp _ (inject_Z z)).
  - rewrite round_half_even_Z. reflexivity.
  - field. lra.
Qed.

Lemma round_0 n : Py.round 0 n == 0.
Proof.
  pose proof (round_exact 0 n) as H. pose proof (pow10_pos n) as Hp.
  assert (inject_Z 0 / Py.pow10 n == 0) as E by (field; lra).
  rewrite E in H. exact H.
Qed.

(** ** Data model *)

Open Scope string_scope.

(** [app.models.plan.DRStrategy]. *)
Inductive DRStrategy : Type :=
  | COST_MINIMIZE
  | RELIABILITY
  | BALANCED
  | EMERGENCY.

Definition DRStrategy_eqb (a b : DRStrategy) : bool :=
  match a, b with
  | COST_MINIMIZE, COST_MINIMIZE
  | RELIABILITY, RELIABILITY
  | BALANCED, BALANCED
  | EMERGENCY, EMERGENCY => true
  | _, _ => false
  end.

(** A timezone-aware [datetime]: the instant in microseconds since the epoch
    and the offset of its timezone from UTC in seconds.  (The planner
    subtracts [datetime.now(timezone.utc)] from the window start, which is
    defined for aware values only.) *)
Record datetime : Type := mk_datetime {
  epoch_us : Z;
  utcoffset_s : Z
}.

(** [dt.hour]: the hour of the day on the wall clock of the value's zone. *)
Definition hour (dt : datetime) : Z :=
  (((epoch_us dt / 1000000 + utcoffset_s dt) / 3600) mod 24)%Z.

(** [(a - now).total_seconds()], with [now] an instant in microseconds. *)
Definition total_seconds_until (a : datetime) (now_us : Z) : Q :=
  inject_Z (epoch_us a - now_us) / inject_Z 1000000.

(** The JSON object of [current_snapshot.json]: every key may be absent. *)
Record Snapshot : Type := mk_Snapshot {
  system_load_mw : option Q;
  price_per_mwh : option Q;
  snapshot_reserves_mw : option Q
}.

(** The JSON object of [forecast_24h.json]. *)
Record Forecast : Type := mk_Forecast {
  peak_load_mw : option Q;
  peak_hour : option Q
}.

(** [d.get(key, default)]. *)
Definition get (field : option Q) (default : Q) : Q :=
  match field with
  | Some v => v
  | None => default
  end.

(** What [_load_ercot_data] returns: the two files under the keys
    ["snapshot"] and ["forecast"], or a dictionary with the keys ["error"]
    and ["note"] only. *)
Inductive ErcotData : Type :=
  | ErcotFiles (snapshot : Snapshot) (forecast : Forecast)
  | ErcotError (error note : string).

(** Exceptions raised inside the planner. *)
Inductive exn : Type :=
  | KeyError (key : string).

Inductive result (A : Type) : Type :=
  | Ok (a : A)
  | Raise (e : exn).
Arguments Ok {A} a.
Arguments Raise {A} e.

Definition bind {A B} (r : result A) (k : A -> result B) : result B :=
  match r with
  | Ok a => k a
  | Raise e => Raise e
  end.

Notation "x <- r ;; k" := (bind r (fun x => k))
  (at level 61, r at next level, right associativity).

(** [ercot_data[key]] for the two keys the analyzer subscripts. *)
Definition ercot_snapshot (d : ErcotData) : result Snapshot :=
  match d with
  | ErcotFiles s _ => Ok s
  | ErcotError _ _ => Raise (KeyError "snapshot")
  end.

Definition ercot_forecast (d : ErcotData) : result Forecast :=
  match d with
  | ErcotFiles _ f => Ok f
  | ErcotError _ _ => Raise (KeyError "forecast")
  end.

(** The situation dictionary built by [_analyze_situation]. *)
Record Situation : Type := mk_Situation {
  current_load_mw : Q;
  current_price : Q;
  reserves_mw : Q;
  forecast_peak_mw : Q;
  forecast_peak_hour : Q;
  window_overlaps_peak : bool;
  stress_level : string
}.

(** A cohort of [cohorts.json], with the keys the planner reads. *)
Record Cohort : Type := mk_Cohort {
  id : string;
  name : string;
  segment : string;
  num_accounts : Z;
  flex_kw_per_account : Q;
  peak_hours : list Z;
  baseline_acceptance_rate : Q;
  comfort_limit_f : Q;
  min_notice_hours : Q
}.

Record Factors : Type := mk_Factors {
  peak_alignment : Q;
  acceptance : Q;
  flex_mw : Q
}.

Record ScoredCohort : Type := mk_ScoredCohort {
  cohort : Cohort;
  score : Q;
  factors : Factors;
  available_mw : Q
}.

(** The outreach message: the template chosen and the values formatted into
    it (the rendering of the number with one decimal is left abstract). *)
Inductive Message : Type :=
  | MsgResidentialEV (target : Q)
  | MsgResidentialSolar (target : Q)
  | MsgCommercialHVAC (comfort_limit target : Q)
  | MsgIndustrial (target : Q)
  | MsgGeneric (target : Q).

Record Allocation : Type := mk_Allocation {
  cohort_id : string;
  cohort_name : string;
  target_mw : Q;
  predicted_mw : Q;
  acceptance_probability : Q;
  alloc_num_accounts : Z;
  message_template : Message
}.

(** The plan dictionary of [create_plan], without the three fields that are
    formatted text of the clock and of the other fields ([id], [created_at],
    [explanation]). *)
Record Plan : Type := mk_Plan {
  window_start : datetime;
  window_end : datetime;
  strategy : DRStrategy;
  status : string;
  target_mw_total : Q;
  predicted_mw_total : Q;
  cohort_allocations : list Allocation;
  confidence_score : Q;
  constraints_applied : list string;
  situation_summary : Situation
}.

(** ** Grid situation analyzer *)

(** [_calculate_stress_level]. *)
Definition _calculate_stress_level (snapshot : Snapshot) (forecast : Forecast) : string :=
  let load := get (system_load_mw snapshot) 65000 in
  let reserves := get (snapshot_reserves_mw snapshot) 15000 in
  if Py.ltb reserves 5000 || Py.ltb 75000 load then "critical"
  else if Py.ltb reserves 10000 || Py.ltb 70000 load then "high"
  else if Py.ltb reserves 15000 || Py.ltb 65000 load then "moderate"
  else "low".

(** [_analyze_situation]. *)
Definition _analyze_situation (ercot_data : ErcotData) (w_start w_end : datetime)
  : result Situation :=
  snapshot <- ercot_snapshot ercot_data ;;
  forecast <- ercot_forecast ercot_data ;;
  Ok {| current_load_mw := get (system_load_mw snapshot) 65000;
        current_price := get (price_per_mwh snapshot) 45;
        reserves_mw := get (snapshot_reserves_mw snapshot) 15000;
        forecast_peak_mw := get (peak_load_mw forecast) 72000;
        forecast_peak_hour := get (peak_hour forecast) 17;
        window_overlaps_peak :=
          Py.geb (get (peak_hour forecast) 17) (inject_Z (hour w_start))
          && Py.leb (get (peak_hour forecast) 17) (inject_Z (hour w_end));
        stress_level := _calculate_stress_level snapshot forecast |}.

(** ** Target derivation *)

(** [_calculate_target_mw]. *)
Definition _calculate_target_mw (situation : Situation) (strategy : DRStrategy) : Q :=
  let base_target := 50 in
  match strategy with
  | EMERGENCY => base_target * 3
  | RELIABILITY =>
      if stress_level situation =? "critical" then base_target * (25 # 10)
      else if stress_level situation =? "high" then base_target * 2
      else base_target * (15 # 10)
  | COST_MINIMIZE =>
      let price := current_price situation in
      if Py.ltb 100 price then base_target * 2
      else if Py.ltb 50 price then base_target * (15 # 10)
      else base_target
  | BALANCED => base_target * (15 # 10)
  end.

(** ** Cohort scorer *)

(** [needle in hay] on strings. *)
Fixpoint contains (needle hay : string) : bool :=
  prefix needle hay ||
  match hay with
  | EmptyString => false
  | String _ rest => contains needle rest
  end.

(** [list(range(a, b))]. *)
Definition range (a b : Z) : list Z :=
  map (fun i => (a + Z.of_nat i)%Z) (seq 0 (Z.to_nat (b - a))).

(** [len(set(xs) & set(ys))]. *)
Definition len_set_inter (xs ys : list Z) : Q :=
  Py.len (filter (fun x => existsb (Z.eqb x) ys) (nodup Z.eq_dec xs)).

(** The part of the loop body of [_score_cohorts] after the notice check:
    the factors, the score and the available MW of one cohort. *)
Definition score_cohort (c : Cohort) (w_start w_end : datetime)
    (strategy : DRStrategy) : ScoredCohort :=
  let score := 0 in
  let window_hours := range (hour w_start) (hour w_end + 1) in
  let peak_overlap := len_set_inter window_hours (peak_hours c) in
  let peak_alignment :=
    match window_hours with
    | [] => 0
    | _ => peak_overlap / Py.len window_hours
    end in
  let score := score + peak_alignment * 30 in
  let acceptance := baseline_acceptance_rate c in
  let score := score + acceptance * 25 in
  let flex_mw := inject_Z (num_accounts c) * flex_kw_per_account c / 1000 in
  let score := score + Py.min (flex_mw / 10) 20 in
  let score :=
    match strategy with
    | COST_MINIMIZE =>
        if contains "commercial" (segment c) || contains "industrial" (segment c)
        then score + 15 else score
    | RELIABILITY => score + acceptance * 15
    | EMERGENCY =>
        if Py.leb (min_notice_hours c) 1 then score + 20 else score
    | BALANCED => score
    end in
  {| cohort := c;
     score := score;
     factors := {| peak_alignment := peak_alignment;
                   acceptance := acceptance;
                   flex_mw := flex_mw |};
     available_mw := flex_mw * peak_alignment * acceptance |}.

(** [(window_start - datetime.now(timezone.utc)).total_seconds() / 3600]. *)
Definition hours_notice (w_start : datetime) (now_us : Z) : Q :=
  total_seconds_until w_start now_us / 3600.

(** The loop of [_score_cohorts].  The clock is read once in every
    iteration: [clock t] is the reading number [t] of the wall clock, in
    microseconds since the epoch, and the cohort at position [i] of the list
    is checked against reading [tick + i]. *)
Fixpoint score_loop (clock : nat -> Z) (tick : nat) (cohorts : list Cohort)
    (w_start w_end : datetime) (strategy : DRStrategy) : list ScoredCohort :=
  match cohorts with
  | [] => []
  | c :: rest =>
      if Py.ltb (hours_notice w_start (clock tick)) (min_notice_hours c)
      then score_loop clock (S tick) rest w_start w_end strategy
      else score_cohort c w_start w_end strategy
           :: score_loop clock (S tick) rest w_start w_end strategy
  end.

(** [scored.sort(key=lambda x: x["score"], reverse=True)]: a stable sort by
    descending score; an element goes behind the ones of equal score that
    were before it in the list. *)
Fixpoint insert_by_score (x : ScoredCohort) (l : list ScoredCohort) : list ScoredCohort :=
  match l with
  | [] => [x]
  | y :: l' =>
      if Py.ltb (score x) (score y) then y :: insert_by_score x l'
      else x :: y :: l'
  end.

Definition sort_by_score (l : list ScoredCohort) : list ScoredCohort :=
  fold_right insert_by_score [] l.

(** [_score_cohorts]. *)
Definition _score_cohorts (clock : nat -> Z) (tick : nat) (cohorts : list Cohort)
    (w_start w_end : datetime) (strategy : DRStrategy) (situation : Situation)
  : list ScoredCohort :=
  sort_by_score (score_loop clock tick cohorts w_start w_end strategy).

(** ** Allocator *)

(** [_generate_message]: the first key of the template dictionary, in its
    order, that occurs in the segment. *)
Definition _generate_message (c : Cohort) (target : Q) : Message :=
  if contains "residential_ev" (segment c) then MsgResidentialEV target
  else if contains "residential_solar" (segment c) then MsgResidentialSolar target
  else if contains "commercial_hvac" (segment c)
       then MsgCommercialHVAC (comfort_limit_f c) target
  else if contains "industrial" (segment c) then MsgIndustrial target
  else MsgGeneric target.

(** The MW given to one scored cohort when [allocated] MW are given already. *)
Definition allocate_for (sc : ScoredCohort) (target allocated : Q)
    (strategy : DRStrategy) : Q :=
  let available := available_mw sc in
  let needed := target - allocated in
  let allocate := Py.min available needed in
  if DRStrategy_eqb strategy BALANCED then
    let max_per_cohort := target * (3 # 10) in
    Py.min allocate max_per_cohort
  else allocate.

(** The dictionary appended for one scored cohort. *)
Definition allocation_entry (sc : ScoredCohort) (allocate : Q) : Allocation :=
  let c := cohort sc in
  let predicted := allocate * baseline_acceptance_rate c in
  {| cohort_id := id c;
     cohort_name := name c;
     target_mw := Py.round allocate 2;
     predicted_mw := Py.round predicted 2;
     acceptance_probability :=
       Py.round (baseline_acceptance_rate c * peak_alignment (factors sc)) 3;
     alloc_num_accounts := num_accounts c;
     message_template := _generate_message c allocate |}.

(** The loop of [_allocate_mw], from the running total [allocated]: it
    returns the allocations appended from here on. *)
Fixpoint allocate_loop (scored_cohorts : list ScoredCohort) (target allocated : Q)
    (strategy : DRStrategy) : list Allocation :=
  match scored_cohorts with
  | [] => []
  | sc :: rest =>
      if Py.geb allocated target then []
      else
        let allocate := allocate_for sc target allocated strategy in
        allocation_entry sc allocate
          :: allocate_loop rest target (allocated + allocate) strategy
  end.

(** [_allocate_mw]. *)
Definition _allocate_mw (scored_cohorts : list ScoredCohort) (target : Q)
    (strategy : DRStrategy) : list Allocation :=
  allocate_loop scored_cohorts target 0 strategy.

(** ** Confidence estimator *)

(** [_calculate_confidence]. *)
Definition _calculate_confidence (allocations : list Allocation)
    (situation : Situation) : Q :=
  match allocations with
  | [] => 0
  | _ =>
      let confidence := 7 # 10 in
      let confidence :=
        if stress_level situation =? "low" then confidence + (1 # 10)
        else if stress_level situation =? "critical" then confidence - (1 # 10)
        else confidence in
      let avg_acceptance :=
        Py.sum (map acceptance_probability allocations) / Py.len allocations in
      let confidence := confidence * (7 # 10) + avg_acceptance * (3 # 10) in
      Py.round (Py.min (Py.max confidence 0) 1) 3
  end.

(** ** Plan assembler *)

(** [_get_applied_constraints], with the clock reading it takes. *)
Definition _get_applied_constraints (now_us : Z) (w_start : datetime) : list string :=
  (if Py.ltb (hours_notice w_start now_us) 4 then ["Short notice period"] else [])
  ++ (if (17 <=? hour w_start)%Z && (hour w_start <=? 20)%Z
      then ["Peak hour window"] else [])
  ++ ["Customer comfort limits enforced"; "Max weekly events checked"].

(** [if not target_mw]: [None] and zero are both false. *)
Definition falsy (target : option Q) : bool :=
  match target with
  | None => true
  | Some t => Qeq_bool t 0
  end.

(** [create_plan].  [ercot_data] and [cohorts] are what [_load_ercot_data]
    and [_load_cohorts] returned; [clock] is the sequence of readings of the
    wall clock, taken once per cohort by the scorer, twice for the plan's
    [id] and [created_at], and once for the applied constraints. *)
Definition create_plan (ercot_data : ErcotData) (cohorts : list Cohort)
    (clock : nat -> Z) (w_start w_end : datetime) (strategy : DRStrategy)
    (target : option Q) (selected_cohorts : option (list string))
  : result Plan :=
  let cohorts :=
    match selected_cohorts with
    | None | Some [] => cohorts
    | Some sel => filter (fun c => existsb (String.eqb (id c)) sel) cohorts
    end in
  situation <- _analyze_situation ercot_data w_start w_end ;;
  let target :=
    if falsy target then _calculate_target_mw situation strategy
    else get target 0 in
  let scored_cohorts :=
    _score_cohorts clock 0 cohorts w_start w_end strategy situation in
  let allocations := _allocate_mw scored_cohorts target strategy in
  let confidence := _calculate_confidence allocations situation in
  let tick := (List.length cohorts + 2)%nat in
  Ok {| window_start := w_start;
        window_end := w_end;
        strategy := strategy;
        status := "proposed";
        target_mw_total := target;
        predicted_mw_total := Py.sum (map predicted_mw allocations);
        cohort_allocations := allocations;
        confidence_score := confidence;
        constraints_applied := _get_applied_constraints (clock tick) w_start;
        situation_summary := situation |}.

(** ** Properties of the analyzer *)

(** Turns every comparison of the goal into a case split on the order of
    its two arguments. *)
Ltac split_comparisons :=
  repeat match goal with
  | |- context [Py.ltb ?a ?b] =>
      let E := fresh "E" in
      destruct (Py.ltb a b) eqn:E;
      [apply ltb_lt in E | apply ltb_ge in E]
  | |- context [Py.leb ?a ?b] =>
      let E := fresh "E" in
      destruct (Py.leb a b) eqn:E;
      [apply leb_le in E | apply leb_gt in E]
  end.

(** The severity order [low < moderate < high < critical] on the strings the
    analyzer uses for stress levels. *)
Definition severity (level : string) : option nat :=
  if level =? "low" then Some 0%nat
  else if level =? "moderate" then Some 1%nat
  else if level =? "high" then Some 2%nat
  else if level =? "critical" then Some 3%nat
  else None.

(** The load and the reserves the classification reads from a snapshot. *)
Definition load_of (s : Snapshot) : Q := get (system_load_mw s) 65000.
Definition reserves_of (s : Snapshot) : Q := get (snapshot_reserves_mw s) 15000.

(** The classification is the ordered cascade of the four levels. *)
Lemma stress_level_cascade s f :
  (reserves_of s < 5000 \/ 75000 < load_of s ->
     _calculate_stress_level s f = "critical")
  /\ (~ (reserves_of s < 5000 \/ 75000 < load_of s) ->
      reserves_of s < 10000 \/ 70000 < load_of s ->
     _calculate_stress_level s f = "high")
  /\ (~ (reserves_of s < 10000 \/ 70000 < load_of s) ->
      reserves_of s < 15000 \/ 65000 < load_of s ->
     _calculate_stress_level s f = "moderate")
  /\ (~ (reserves_of s < 15000 \/ 65000 < load_of s) ->
     _calculate_stress_level s f = "low").
Proof.
  unfold _calculate_stress_level, load_of, reserves_of.
  set (l := get (system_load_mw s) 65000).
  set (r := get (snapshot_reserves_mw s) 15000).
  repeat split; intros; split_comparisons; simpl; try reflexivity;
    exfalso; intuition lra.
Qed.

(** C8: lowering the reserves and/or raising the load of a snapshot never
    lowers the severity of the stress level computed from it, in the order
    low < moderate < high < critical. *)
Theorem stress_level_monotonic (s1 s2 : Snapshot) (f1 f2 : Forecast) :
  reserves_of s2 <= reserves_of s1 ->
  load_of s1 <= load_of s2 ->
  exists v1 v2 : nat,
    severity (_calculate_stress_level s1 f1) = Some v1
    /\ severity (_calculate_stress_level s2 f2) = Some v2
    /\ (v1 <= v2)%nat.
Proof.
  unfold _calculate_stress_level, load_of, reserves_of.
  set (l1 := get (system_load_mw s1) 65000).
  set (r1 := get (snapshot_reserves_mw s1) 15000).
  set (l2 := get (system_load_mw s2) 65000).
  set (r2 := get (snapshot_reserves_mw s2) 15000).
  intros Hr Hl.
  split_comparisons; simpl; try lra;
    eexists; eexists; (split; [reflexivity | split; [reflexivity | lia]]).
Qed.

Lemma stress_level_monotonic_witness :
  exists v1 v2 : nat,
    severity (_calculate_stress_level
                (mk_Snapshot (Some 66000) (Some 45) (Some 12000))
                (mk_Forecast None None)) = Some v1
    /\ severity (_calculate_stress_level
                   (mk_Snapshot (Some 72000) (Some 45) (Some 6000))
                   (mk_Forecast None None)) = Some v2
    /\ (v1 <= v2)%nat.
Proof.
  apply stress_level_monotonic; unfold reserves_of, load_of; simpl; lra.
Defined.

(** C9: on grid data that was loaded, the analyzer's [window_overlaps_peak]
    is true exactly when the forecast peak hour lies between the hours of
    the window start and the window end, both included; for peak hour 18
    and a window from 17:00 to 19:00 it is true. *)
Theorem window_overlaps_peak_iff (snapshot : Snapshot) (forecast : Forecast)
    (w_start w_end : datetime) :
  exists s : Situation,
    _analyze_situation (ErcotFiles snapshot forecast) w_start w_end = Ok s
    /\ forecast_peak_hour s = get (peak_hour forecast) 17
    /\ (window_overlaps_peak s = true <->
        inject_Z (hour w_start) <= forecast_peak_hour s
        /\ forecast_peak_hour s <= inject_Z (hour w_end))
    /\ (peak_hour forecast = Some 18 -> hour w_start = 17%Z -> hour w_end = 19%Z ->
        window_overlaps_peak s = true).
Proof.
  eexists. split; [reflexivity|]. cbn [forecast_peak_hour window_overlaps_peak].
  split; [reflexivity|].
  split.
  - rewrite andb_true_iff, geb_ge, leb_le. tauto.
  - intros -> -> ->. reflexivity.
Qed.

(** A window from 17:00 to 19:00 UTC on the first day of the epoch. *)
Definition at_17h : datetime := mk_datetime (17 * 3600 * 1000000) 0.
Definition at_19h : datetime := mk_datetime (19 * 3600 * 1000000) 0.

Lemma window_overlaps_peak_scenario :
  exists s : Situation,
    _analyze_situation
      (ErcotFiles (mk_Snapshot (Some 72000) (Some 60) (Some 6000))
                  (mk_Forecast (Some 76000) (Some 18))) at_17h at_19h = Ok s
    /\ window_overlaps_peak s = true
    /\ stress_level s = "high".
Proof.
  destruct (window_overlaps_peak_iff
              (mk_Snapshot (Some 72000) (Some 60) (Some 6000))
              (mk_Forecast (Some 76000) (Some 18)) at_17h at_19h)
    as (s & Hs & _ & _ & Hex).
  exists s. split; [exact Hs|]. split.
  - apply Hex; reflexivity.
  - injection Hs as <-. reflexivity.
Defined.

(** ** Properties of the target derivation *)

(** C6: with the base of 50 MW, the derived target is 150 for emergency
    whatever the stress level; 125, 100 or 75 for reliability when the
    stress is critical, high or anything else; 100, 75 or 50 for
    cost_minimize when the price is above 100, above 50 or neither; 75 for
    balanced; and the plan of a call without an explicit target carries the
    derived one. *)
Theorem calculate_target_mw_table (situation : Situation) :
  _calculate_target_mw situation EMERGENCY == 150
  /\ (stress_level situation = "critical" ->
      _calculate_target_mw situation RELIABILITY == 50 * (25 # 10))
  /\ (stress_level situation = "high" ->
      _calculate_target_mw situation RELIABILITY == 50 * 2)
  /\ (stress_level situation <> "critical" -> stress_level situation <> "high" ->
      _calculate_target_mw situation RELIABILITY == 50 * (15 # 10))
  /\ (100 < current_price situation ->
      _calculate_target_mw situation COST_MINIMIZE == 50 * 2)
  /\ (current_price situation <= 100 -> 50 < current_price situation ->
      _calculate_target_mw situation COST_MINIMIZE == 50 * (15 # 10))
  /\ (current_price situation <= 50 ->
      _calculate_target_mw situation COST_MINIMIZE == 50 * 1)
  /\ _calculate_target_mw situation BALANCED == 50 * (15 # 10)
  /\ (forall snapshot forecast cohorts clock w_start w_end strategy selected plan,
        create_plan (ErcotFiles snapshot forecast) cohorts clock w_start w_end
                    strategy None selected = Ok plan ->
        target_mw_total plan
        = _calculate_target_mw (situation_summary plan) strategy).
Proof.
  unfold _calculate_target_mw.
  repeat split.
  - intros ->. reflexivity.
  - intros ->. reflexivity.
  - intros Hc Hh.
    apply String.eqb_neq in Hc, Hh. rewrite Hc, Hh. reflexivity.
  - intros H. apply ltb_lt in H. rewrite H. reflexivity.
  - intros H1 H2. apply ltb_ge in H1. apply ltb_lt in H2.
    rewrite H1, H2. reflexivity.
  - intros H.
    assert (Py.ltb 100 (current_price situation) = false) as -> by (apply ltb_ge; lra).
    assert (Py.ltb 50 (current_price situation) = false) as -> by (apply ltb_ge; lra).
    reflexivity.
  - intros snapshot forecast cohorts clock w_start w_end strategy selected plan H.
    unfold create_plan in H. cbn [_analyze_situation ercot_snapshot ercot_forecast bind] in H.
    injection H as <-. reflexivity.
Qed.

Lemma calculate_target_mw_table_witness :
  _calculate_target_mw
    (mk_Situation 72000 60 6000 76000 18 true "high") RELIABILITY == 50 * 2.
Proof.
  apply (calculate_target_mw_table
           (mk_Situation 72000 60 6000 76000 18 true "high")).
  reflexivity.
Defined.

(** ** The plan assembler on missing grid data *)

(** C1: when [_load_ercot_data] returned its error dictionary,
    [create_plan] raises [KeyError('snapshot')] out of the analyzer, with or
    without an explicit target. *)
Theorem create_plan_no_grid_data (error note : string) (cohorts : list Cohort)
    (clock : nat -> Z) (w_start w_end : datetime) (strategy : DRStrategy)
    (target : option Q) (selected : option (list string)) :
  create_plan (ErcotError error note) cohorts clock w_start w_end strategy
              target selected
  = Raise (KeyError "snapshot").
Proof.
  unfold create_plan, _analyze_situation.
  cbn [ercot_snapshot bind]. reflexivity.
Qed.

(** ** Properties of the allocator *)

Lemma fold_left_Qplus_acc (l : list Q) (a : Q) :
  fold_left Qplus l a == a + fold_left Qplus l 0.
Proof.
  revert a. induction l as [|x l IH]; intros a; simpl.
  - lra.
  - rewrite (IH (a + x)), (IH (0 + x)). lra.
Qed.

Lemma sum_cons (x : Q) (l : list Q) : Py.sum (x :: l) == x + Py.sum l.
Proof. unfold Py.sum. simpl. rewrite fold_left_Qplus_acc. lra. Qed.

Lemma sum_nil : Py.sum [] == 0.
Proof. reflexivity. Qed.

Lemma len_nil {A} : Py.len (@nil A) == 0.
Proof. reflexivity. Qed.

Lemma len_cons {A} (x : A) (l : list A) : Py.len (x :: l) == 1 + Py.len l.
Proof.
  unfold Py.len. cbn [List.length]. rewrite Nat2Z.inj_succ, <- Z.add_1_l.
  rewrite inject_Z_plus. reflexivity.
Qed.

Lemma len_map {A B} (f : A -> B) (l : list A) : Py.len (map f l) = Py.len l.
Proof. unfold Py.len. rewrite length_map. reflexivity. Qed.

Lemma len_nonneg {A} (l : list A) : 0 <= Py.len l.
Proof.
  unfold Py.len. change 0 with (inject_Z 0). rewrite <- Zle_Qle. lia.
Qed.

(** Half a unit of the second and of the third decimal. *)
Lemma half_unit_2 : (1 # 2) / Py.pow10 2 == 1 # 200.
Proof. reflexivity. Qed.

Lemma half_unit_3 : (1 # 2) / Py.pow10 3 == 1 # 2000.
Proof. reflexivity. Qed.

Lemma round2_upper x : Py.round x 2 <= x + (1 # 200).
Proof.
  pose proof (round_near x 2) as [H _]. rewrite half_unit_2 in H. lra.
Qed.

(** One cohort is never given more than what is still needed, nor more than
    it has available; under the balanced strategy it is never given more
    than 30% of the target. *)
Lemma allocate_for_le_needed sc target allocated strategy :
  allocate_for sc target allocated strategy <= target - allocated.
Proof.
  unfold allocate_for.
  pose proof (min_le_r (available_mw sc) (target - allocated)).
  destruct (DRStrategy_eqb strategy BALANCED); [|assumption].
  pose proof (min_le_l (Py.min (available_mw sc) (target - allocated))
                       (target * (3 # 10))).
  lra.
Qed.

Lemma allocate_for_balanced_cap sc target allocated :
  allocate_for sc target allocated BALANCED <= target * (3 # 10).
Proof. unfold allocate_for. simpl. apply min_le_r. Qed.

Lemma allocate_for_nonneg sc target allocated strategy :
  0 <= available_mw sc -> allocated < target -> 0 < target ->
  0 <= allocate_for sc target allocated strategy.
Proof.
  intros Ha Hr Ht. unfold allocate_for.
  assert (0 <= Py.min (available_mw sc) (target - allocated)) as Hm
    by (apply min_glb; lra).
  destruct (DRStrategy_eqb strategy BALANCED); [|assumption].
  apply min_glb; lra.
Qed.

Lemma allocate_for_zero sc target allocated strategy :
  available_mw sc == 0 -> allocated < target -> 0 < target ->
  allocate_for sc target allocated strategy == 0.
Proof.
  intros Ha Hr Ht.
  apply Qle_antisym.
  - unfold allocate_for.
    pose proof (min_le_l (available_mw sc) (target - allocated)) as Hm.
    destruct (DRStrategy_eqb strategy BALANCED); [|lra].
    pose proof (min_le_l (Py.min (available_mw sc) (target - allocated))
                         (target * (3 # 10))).
    lra.
  - apply allocate_for_nonneg; lra.
Qed.

(** The loop appends nothing when the target is not positive. *)
Lemma allocate_mw_nonpositive_target scs target strategy :
  target <= 0 -> _allocate_mw scs target strategy = [].
Proof.
  intros H. unfold _allocate_mw. destruct scs as [|sc rest]; [reflexivity|].
  simpl. assert (Py.geb 0 target = true) as -> by (apply geb_ge; lra).
  reflexivity.
Qed.

(** The allocation at position [i] is the entry of the scored cohort at
    position [i], computed from a running total that was below the target. *)
Lemma allocate_loop_nth scs target strategy :
  forall allocated i a,
    nth_error (allocate_loop scs target allocated strategy) i = Some a ->
    exists sc running,
      nth_error scs i = Some sc
      /\ running < target
      /\ a = allocation_entry sc (allocate_for sc target running strategy).
Proof.
  induction scs as [|sc rest IH]; intros allocated i a H.
  - destruct i; discriminate H.
  - simpl in H. destruct (Py.geb allocated target) eqn:E.
    + destruct i; discriminate H.
    + assert (allocated < target) as Hlt.
      { apply Qnot_le_lt. intros Hle. apply geb_ge in Hle. congruence. }
      destruct i as [|i]; simpl in H.
      * injection H as <-. exists sc, allocated. repeat split. exact Hlt.
      * apply IH in H. exact H.
Qed.

(** The sum of the allocated MW stays within what was still needed, up to
    half a cent of a MW per allocation. *)
Lemma allocate_loop_sum scs target strategy :
  forall allocated,
    allocated <= target ->
    Py.sum (map target_mw (allocate_loop scs target allocated strategy))
    <= (target - allocated)
       + Py.len (allocate_loop scs target allocated strategy) * (1 # 200).
Proof.
  induction scs as [|sc rest IH]; intros allocated Hle; simpl.
  - rewrite sum_nil, len_nil. lra.
  - destruct (Py.geb allocated target).
    + cbn [map]. rewrite sum_nil, len_nil. lra.
    + cbn [map]. rewrite sum_cons, len_cons.
      pose proof (allocate_for_le_needed sc target allocated strategy) as Hn.
      set (allocate := allocate_for sc target allocated strategy) in *.
      specialize (IH (allocated + allocate) ltac:(lra)).
      cbn [target_mw allocation_entry].
      pose proof (round2_upper allocate). lra.
Qed.

(** C2: for a target that is not negative, the sum of [target_mw] over the
    allocations exceeds the total target by at most the rounding of the
    allocations to two decimals, half a unit of the second decimal each. *)
Theorem allocations_sum_within_target (scored_cohorts : list ScoredCohort)
    (target : Q) (strategy : DRStrategy) :
  0 <= target ->
  Py.sum (map target_mw (_allocate_mw scored_cohorts target strategy))
  <= target + Py.len (_allocate_mw scored_cohorts target strategy) * (1 # 200).
Proof.
  intros H. unfold _allocate_mw.
  pose proof (allocate_loop_sum scored_cohorts target strategy 0 H). lra.
Qed.


(** *** Concrete cohorts for the examples below *)

(** An EV cohort whose peak hours cover the window from 17:00 to 19:00. *)
Definition cohort_ev : Cohort :=
  {| id := "ev_1"; name := "EV owners"; segment := "residential_ev";
     num_accounts := 5000; flex_kw_per_account := 2;
     peak_hours := [17; 18; 19]%Z; baseline_acceptance_rate := 1 # 2;
     comfort_limit_f := 2; min_notice_hours := 1 |}.

(** A cohort whose peak hours miss the window: zero peak-hour alignment. *)
Definition cohort_morning : Cohort :=
  {| id := "hvac_1"; name := "Offices"; segment := "commercial_hvac";
     num_accounts := 200; flex_kw_per_account := 50;
     peak_hours := [9; 10; 11]%Z; baseline_acceptance_rate := 9 # 10;
     comfort_limit_f := 2; min_notice_hours := 1 |}.

(** A cohort whose file entry gives a negative flexible load per account. *)
Definition cohort_negative_flex : Cohort :=
  {| id := "solar_1"; name := "Solar homes"; segment := "residential_solar";
     num_accounts := 10; flex_kw_per_account := - (1000);
     peak_hours := [17; 18; 19]%Z; baseline_acceptance_rate := 1 # 2;
     comfort_limit_f := 2; min_notice_hours := 1 |}.

(** A cohort that asks for two days of notice. *)
Definition cohort_two_days : Cohort :=
  {| id := "ind_1"; name := "Plants"; segment := "industrial";
     num_accounts := 12; flex_kw_per_account := 800;
     peak_hours := [17; 18; 19]%Z; baseline_acceptance_rate := 8 # 10;
     comfort_limit_f := 0; min_notice_hours := 48 |}.

(** A clock that stands still at the epoch: the window that starts at
    [at_17h] is then 17 hours away. *)
Definition clock_at_epoch : nat -> Z := fun _ => 0%Z.

Definition situation_high : Situation :=
  mk_Situation 72000 60 6000 76000 18 true "high".

Example hours_notice_at_17h : hours_notice at_17h 0 == 17.
Proof. reflexivity. Qed.

Example score_cohort_ev_available :
  available_mw (score_cohort cohort_ev at_17h at_19h BALANCED) == 5.
Proof. reflexivity. Qed.

Example score_cohort_morning_available :
  available_mw (score_cohort cohort_morning at_17h at_19h BALANCED) == 0.
Proof. reflexivity. Qed.

Lemma allocations_sum_within_target_witness :
  Py.sum (map target_mw
            (_allocate_mw
               (_score_cohorts clock_at_epoch 0 [cohort_ev; cohort_morning]
                               at_17h at_19h BALANCED situation_high)
               75 BALANCED))
  <= 75 + Py.len (_allocate_mw
                    (_score_cohorts clock_at_epoch 0 [cohort_ev; cohort_morning]
                                    at_17h at_19h BALANCED situation_high)
                    75 BALANCED) * (1 # 200).
Proof. apply allocations_sum_within_target. lra. Defined.

(** The allocation of position [i] against the scored cohort of position
    [i]: when that cohort has a non-negative available MW and an acceptance
    rate in [0, 1], the predicted MW is at most the target MW. *)
Lemma entry_predicted_le_target sc target running strategy :
  0 < target -> running < target ->
  0 <= available_mw sc ->
  0 <= baseline_acceptance_rate (cohort sc) <= 1 ->
  predicted_mw (allocation_entry sc (allocate_for sc target running strategy))
  <= target_mw (allocation_entry sc (allocate_for sc target running strategy)).
Proof.
  intros Ht Hr Ha [Hr0 Hr1]. cbn [predicted_mw target_mw allocation_entry].
  apply round_mono.
  pose proof (allocate_for_nonneg sc target running strategy Ha Hr Ht) as Hn.
  set (allocate := allocate_for sc target running strategy) in *.
  set (rate := baseline_acceptance_rate (cohort sc)) in *.
  pose proof (Qmult_le_compat_r rate 1 allocate Hr1 Hn) as H.
  rewrite (Qmult_comm allocate rate). lra.
Qed.

(** C3 (as amended): an allocation made for a scored cohort whose available
    MW is not negative and whose acceptance rate is in [0, 1] has a
    [predicted_mw] that is at most its [target_mw]. *)
Theorem predicted_le_target (scored_cohorts : list ScoredCohort) (target : Q)
    (strategy : DRStrategy) (i : nat) (sc : ScoredCohort) (a : Allocation) :
  nth_error scored_cohorts i = Some sc ->
  nth_error (_allocate_mw scored_cohorts target strategy) i = Some a ->
  0 <= available_mw sc ->
  0 <= baseline_acceptance_rate (cohort sc) <= 1 ->
  predicted_mw a <= target_mw a.
Proof.
  intros Hsc Ha Hav Hrate.
  destruct (Qlt_le_dec 0 target) as [Ht|Ht].
  - apply allocate_loop_nth in Ha.
    destruct Ha as (sc' & running & Hsc' & Hrun & ->).
    rewrite Hsc in Hsc'. injection Hsc' as <-.
    apply entry_predicted_le_target; assumption.
  - rewrite (allocate_mw_nonpositive_target _ _ _ Ht) in Ha.
    destruct i; discriminate Ha.
Qed.

(** Decides an order or an equality between two closed numbers. *)
Ltac decide_closed :=
  vm_compute; first [reflexivity | discriminate | (split; discriminate)].

Lemma predicted_le_target_witness :
  exists a : Allocation,
    nth_error (_allocate_mw
                 (_score_cohorts clock_at_epoch 0 [cohort_ev; cohort_morning]
                                 at_17h at_19h BALANCED situation_high)
                 75 BALANCED) 0 = Some a
    /\ predicted_mw a <= target_mw a.
Proof.
  eexists. split; [reflexivity|].
  apply (predicted_le_target
           (_score_cohorts clock_at_epoch 0 [cohort_ev; cohort_morning]
                           at_17h at_19h BALANCED situation_high)
           75 BALANCED 0 (score_cohort cohort_ev at_17h at_19h BALANCED)).
  - reflexivity.
  - reflexivity.
  - decide_closed.
  - decide_closed.
Defined.

(** C3 without the condition on the available MW fails for a cohort with
    a negative flexible load: its acceptance rate is 1/2, it is given
    -5 MW and -2.5 MW are predicted. *)
Lemma predicted_exceeds_target_counterexample :
  exists a : Allocation,
    nth_error (_allocate_mw
                 (_score_cohorts clock_at_epoch 0 [cohort_negative_flex]
                                 at_17h at_19h BALANCED situation_high)
                 75 BALANCED) 0 = Some a
    /\ 0 <= baseline_acceptance_rate cohort_negative_flex
    /\ baseline_acceptance_rate cohort_negative_flex <= 1
    /\ target_mw a == - (5)
    /\ predicted_mw a == - (5 # 2)
    /\ target_mw a < predicted_mw a.
Proof.
  eexists. split; [reflexivity|].
  repeat split; decide_closed.
Qed.

(** The value of [allocated_mw] when the loop of [_allocate_mw], started
    from the running total [allocated], is done with the given cohorts. *)
Fixpoint allocated_after (scored_cohorts : list ScoredCohort) (target allocated : Q)
    (strategy : DRStrategy) : Q :=
  match scored_cohorts with
  | [] => allocated
  | sc :: rest =>
      if Py.geb allocated target then allocated
      else allocated_after rest target
             (allocated + allocate_for sc target allocated strategy) strategy
  end.

Lemma allocated_after_below_target scs target strategy :
  allocated_after scs target 0 strategy < target -> 0 < target.
Proof.
  destruct scs as [|sc rest]; simpl; [tauto|].
  destruct (Py.geb 0 target) eqn:E; [tauto|].
  intros _. apply Qnot_le_lt. intros Hle. apply geb_ge in Hle. congruence.
Qed.

(** While the running total is below the target when the loop reaches
    position [i], the cohort at that position gets its entry. *)
Lemma allocate_loop_reaches scs target strategy :
  forall i allocated sc,
    nth_error scs i = Some sc ->
    allocated_after (firstn i scs) target allocated strategy < target ->
    nth_error (allocate_loop scs target allocated strategy) i
    = Some (allocation_entry sc
              (allocate_for sc target
                 (allocated_after (firstn i scs) target allocated strategy)
                 strategy)).
Proof.
  induction scs as [|sc0 rest IH]; intros i allocated sc Hsc Hlt.
  - destruct i; discriminate Hsc.
  - destruct i as [|i]; simpl in *.
    + injection Hsc as ->.
      assert (Py.geb allocated target = false) as ->; [|reflexivity].
      apply not_true_iff_false. rewrite geb_ge. lra.
    + destruct (Py.geb allocated target) eqn:E.
      * apply geb_ge in E. lra.
      * apply IH; assumption.
Qed.

(** C10: a scored cohort with zero available MW that the loop reaches while
    the running total is below the target gets an allocation entry with
    [target_mw] 0 and [predicted_mw] 0; so the allocation list can hold
    zero-MW entries and be longer than the number of cohorts that
    contribute MW (here a cohort with zero peak-hour alignment, ranked below
    one that contributes 5 MW of the 50 MW asked for). *)
Theorem zero_available_still_allocated :
  (forall scored_cohorts target strategy i sc,
      nth_error scored_cohorts i = Some sc ->
      available_mw sc == 0 ->
      allocated_after (firstn i scored_cohorts) target 0 strategy < target ->
      exists a,
        nth_error (_allocate_mw scored_cohorts target strategy) i = Some a
        /\ cohort_id a = id (cohort sc)
        /\ target_mw a == 0
        /\ predicted_mw a == 0)
  /\ (let allocations :=
        _allocate_mw
          (_score_cohorts clock_at_epoch 0 [cohort_ev; cohort_morning]
                          at_17h at_19h COST_MINIMIZE situation_high)
          50 COST_MINIMIZE in
      map cohort_id allocations = ["ev_1"; "hvac_1"]
      /\ Forall2 Qeq (map target_mw allocations) [5; 0]
      /\ (List.length (filter (fun a => Py.ltb 0 (target_mw a)) allocations)
          < List.length allocations)%nat).
Proof.
  split.
  - intros scs target strategy i sc Hsc Hav Hlt.
    pose proof (allocated_after_below_target _ _ _ Hlt) as Ht.
    eexists. split; [apply allocate_loop_reaches; eassumption|].
    set (running := allocated_after (firstn i scs) target 0 strategy) in *.
    pose proof (allocate_for_zero sc target running strategy Hav Hlt Ht) as Hz.
    cbn [cohort_id target_mw predicted_mw allocation_entry].
    split; [reflexivity|]. rewrite Hz. split.
    + apply round_0.
    + setoid_replace (0 * baseline_acceptance_rate (cohort sc)) with 0 by ring.
      apply round_0.
  - cbv zeta. split; [reflexivity|]. split.
    + repeat constructor.
    + vm_compute. lia.
Qed.

Lemma zero_available_still_allocated_witness :
  exists a : Allocation,
    nth_error (_allocate_mw
                 [score_cohort cohort_morning at_17h at_19h BALANCED;
                  score_cohort cohort_ev at_17h at_19h BALANCED]
                 75 BALANCED) 0 = Some a
    /\ cohort_id a = id cohort_morning
    /\ target_mw a == 0
    /\ predicted_mw a == 0.
Proof.
  apply (proj1 zero_available_still_allocated
           [score_cohort cohort_morning at_17h at_19h BALANCED;
            score_cohort cohort_ev at_17h at_19h BALANCED]
           75 BALANCED 0%nat
           (score_cohort cohort_morning at_17h at_19h BALANCED)).
  - reflexivity.
  - reflexivity.
  - decide_closed.
Defined.

(** ** Properties of the confidence estimator *)

(** The estimate in the words of the design: base 0.70, plus 0.10 under low
    stress, minus 0.10 under critical stress, blended 0.7 / 0.3 with the
    mean acceptance probability, clamped to [0, 1], rounded to three
    decimals; 0 without allocations. *)
Definition clamp01 (x : Q) : Q :=
  if Py.ltb x 0 then 0 else if Py.ltb 1 x then 1 else x.

Definition mean (l : list Q) : Q := Py.sum l / Py.len l.

Definition spec_confidence (allocations : list Allocation) (situation : Situation) : Q :=
  if (List.length allocations =? 0)%nat then 0
  else
    let situational :=
      (70 # 100)
      + (if stress_level situation =? "low" then 10 # 100 else 0)
      - (if stress_level situation =? "critical" then 10 # 100 else 0) in
    Py.round
      (clamp01 ((7 # 10) * situational
                + (3 # 10) * mean (map acceptance_probability allocations))) 3.

Lemma min_max_clamp01 x : Py.min (Py.max x 0) 1 == clamp01 x.
Proof.
  unfold Py.min, Py.max, clamp01.
  destruct (Qlt_le_dec x 0), (Qlt_le_dec 1 0); try lra;
    split_comparisons; try lra;
    destruct (Qlt_le_dec 1 x); lra.
Qed.

Lemma clamp01_range x : 0 <= clamp01 x <= 1.
Proof. unfold clamp01. split_comparisons; lra. Qed.

Lemma clamp01_lower x b : b <= x -> b <= 1 -> 0 <= b -> b <= clamp01 x.
Proof. intros. unfold clamp01. split_comparisons; lra. Qed.

Lemma round3_range x : 0 <= x <= 1 -> 0 <= Py.round x 3 <= 1.
Proof.
  intros [H0 H1]. split.
  - rewrite <- (round_0 3). apply round_mono, H0.
  - assert (Py.round 1 3 == 1) as <- by reflexivity. apply round_mono, H1.
Qed.

Lemma round3_thousandth x : exists k : Z, Py.round x 3 == inject_Z k / 1000.
Proof. unfold Py.round. eexists. reflexivity. Qed.

Lemma sum_nonneg (l : list Q) : Forall (fun p => 0 <= p) l -> 0 <= Py.sum l.
Proof.
  induction 1 as [|p l Hp _ IH].
  - rewrite sum_nil. lra.
  - rewrite sum_cons. lra.
Qed.

Lemma mean_nonneg (l : list Q) : Forall (fun p => 0 <= p) l -> 0 <= mean l.
Proof.
  intros H. unfold mean. apply Qmult_le_0_compat.
  - apply sum_nonneg, H.
  - apply Qinv_le_0_compat, len_nonneg.
Qed.

(** The estimator computes the estimate of the design. *)
Lemma calculate_confidence_spec allocations situation :
  _calculate_confidence allocations situation
  == spec_confidence allocations situation.
Proof.
  unfold _calculate_confidence, spec_confidence.
  destruct allocations as [|a rest]; [reflexivity|].
  cbn [List.length Nat.eqb]. rewrite min_max_clamp01.
  apply round_Proper; [|reflexivity]. unfold mean.
  rewrite (len_map acceptance_probability).
  assert (forall x y, x == y -> clamp01 x == clamp01 y) as Hc.
  { intros x y E. rewrite <- !min_max_clamp01, E. reflexivity. }
  apply Hc.
  destruct (stress_level situation =? "low") eqn:El.
  - apply String.eqb_eq in El. rewrite El. simpl. unfold Qdiv. ring.
  - destruct (stress_level situation =? "critical"); unfold Qdiv; ring.
Qed.

(** With acceptance probabilities that are not negative, a plan with
    allocations has a confidence of at least 0.42. *)
Lemma spec_confidence_positive allocations situation :
  allocations <> [] ->
  Forall (fun a => 0 <= acceptance_probability a) allocations ->
  42 # 100 <= spec_confidence allocations situation.
Proof.
  intros Hne Hp. unfold spec_confidence.
  destruct allocations as [|a rest]; [congruence|]. cbn [List.length Nat.eqb].
  assert (Py.round (42 # 100) 3 == 42 # 100) as <- by reflexivity.
  apply round_mono, clamp01_lower; try lra.
  assert (0 <= mean (map acceptance_probability (a :: rest))) as Hm.
  { apply mean_nonneg. apply Forall_map. exact Hp. }
  set (m := mean (map acceptance_probability (a :: rest))) in *.
  destruct (stress_level situation =? "low") eqn:El.
  - apply String.eqb_eq in El. rewrite El. simpl. lra.
  - destruct (stress_level situation =? "critical"); lra.
Qed.



(** ** Properties of the scorer *)

(** A window that starts two hours after the epoch. *)
Definition at_2h : datetime := mk_datetime (2 * 3600 * 1000000) 0.

Lemma insert_by_score_In x y l :
  In x (insert_by_score y l) <-> x = y \/ In x l.
Proof.
  induction l as [|z l IH]; simpl.
  - intuition.
  - destruct (Py.ltb (score y) (score z)); simpl; rewrite ?IH; intuition.
Qed.

(** Sorting neither adds nor drops a scored cohort. *)
Lemma sort_by_score_In x l : In x (sort_by_score l) <-> In x l.
Proof.
  induction l as [|y l IH]; simpl.
  - tauto.
  - rewrite insert_by_score_In, IH. intuition.
Qed.

(** The notice shrinks as the clock advances. *)
Lemma hours_notice_antitone w_start (now later : Z) :
  (now <= later)%Z -> hours_notice w_start later <= hours_notice w_start now.
Proof.
  intros H. unfold hours_notice, total_seconds_until, Qdiv.
  repeat apply Qmult_le_compat_r; try discriminate.
  rewrite <- Zle_Qle. lia.
Qed.

(** Every cohort kept by the loop had enough notice on the reading of the
    clock taken in its iteration. *)
Lemma score_loop_notice clock w_start w_end strategy cohorts :
  forall tick sc,
    In sc (score_loop clock tick cohorts w_start w_end strategy) ->
    exists t, (tick <= t)%nat
              /\ In (cohort sc) cohorts
              /\ min_notice_hours (cohort sc) <= hours_notice w_start (clock t).
Proof.
  induction cohorts as [|c rest IH]; intros tick sc H; simpl in H.
  - contradiction.
  - destruct (Py.ltb (hours_notice w_start (clock tick)) (min_notice_hours c)) eqn:E.
    + apply IH in H. destruct H as (t & Ht & Hin & Hn).
      exists t. repeat split; [lia | right; exact Hin | exact Hn].
    + destruct H as [<- | H].
      * exists tick. apply ltb_ge in E.
        repeat split; [lia | left; reflexivity | exact E].
      * apply IH in H. destruct H as (t & Ht & Hin & Hn).
        exists t. repeat split; [lia | right; exact Hin | exact Hn].
Qed.

(** C5: with a clock that never reads earlier than [now], every scored
    cohort has a [min_notice_hours] of at most the hours from [now] to the
    window start; a cohort with less notice than it asks for is in no entry
    of the scored list, and so is one that asks for 48 hours when the window
    starts in 2 hours. *)
Theorem short_notice_excluded (clock : nat -> Z) (tick : nat)
    (cohorts : list Cohort) (w_start w_end : datetime) (strategy : DRStrategy)
    (situation : Situation) (now : Z) :
  (forall t, (now <= clock t)%Z) ->
  (forall sc,
      In sc (_score_cohorts clock tick cohorts w_start w_end strategy situation) ->
      min_notice_hours (cohort sc) <= hours_notice w_start now)
  /\ (forall c,
        hours_notice w_start now < min_notice_hours c ->
        ~ In c (map cohort
                  (_score_cohorts clock tick cohorts w_start w_end strategy
                                  situation)))
  /\ (forall c,
        min_notice_hours c == 48 -> hours_notice w_start now == 2 ->
        ~ In c (map cohort
                  (_score_cohorts clock tick cohorts w_start w_end strategy
                                  situation))).
Proof.
  intros Hclock.
  assert (forall sc,
             In sc (_score_cohorts clock tick cohorts w_start w_end strategy situation) ->
             min_notice_hours (cohort sc) <= hours_notice w_start now) as Hall.
  { intros sc H. unfold _score_cohorts in H. apply (proj1 (sort_by_score_In _ _)) in H.
    apply score_loop_notice in H. destruct H as (t & _ & _ & Hn).
    pose proof (hours_notice_antitone w_start now (clock t) (Hclock t)). lra. }
  assert (forall c,
             hours_notice w_start now < min_notice_hours c ->
             ~ In c (map cohort
                       (_score_cohorts clock tick cohorts w_start w_end strategy
                                       situation))) as Hnone.
  { intros c Hshort Hin. apply in_map_iff in Hin.
    destruct Hin as (sc & <- & Hsc). apply Hall in Hsc. lra. }
  split; [exact Hall|]. split; [exact Hnone|].
  intros c H48 H2. apply Hnone. lra.
Qed.

Example score_cohorts_two_hours_ahead :
  map (fun sc => id (cohort sc))
      (_score_cohorts clock_at_epoch 0 [cohort_two_days; cohort_ev]
                      at_2h at_19h EMERGENCY situation_high)
  = ["ev_1"].
Proof. reflexivity. Qed.

Lemma short_notice_excluded_witness :
  hours_notice at_2h 0 == 2
  /\ min_notice_hours cohort_two_days == 48
  /\ ~ In cohort_two_days
         (map cohort
            (_score_cohorts clock_at_epoch 0 [cohort_two_days; cohort_ev]
                            at_2h at_19h EMERGENCY situation_high)).
Proof.
  split; [reflexivity|]. split; [reflexivity|].
  apply (short_notice_excluded clock_at_epoch 0 [cohort_two_days; cohort_ev]
           at_2h at_19h EMERGENCY situation_high 0).
  - intros t. unfold clock_at_epoch. lia.
  - reflexivity.
  - reflexivity.
Defined.

(** * Further properties of the planner *)

(** ** The ranking made by the scorer *)

(** [a] may stand before [b] in a ranking: its score is not the lower. *)
Definition ranks_before (a b : ScoredCohort) : Prop := score b <= score a.

Lemma insert_by_score_sorted x l :
  StronglySorted ranks_before l ->
  StronglySorted ranks_before (insert_by_score x l).
Proof.
  induction 1 as [|y l Hs IH Hy]; simpl.
  - repeat constructor.
  - destruct (Py.ltb (score x) (score y)) eqn:E.
    + apply ltb_lt in E. constructor; [exact IH|].
      apply Forall_forall. intros z Hz. apply insert_by_score_In in Hz.
      destruct Hz as [-> | Hz].
      * unfold ranks_before. lra.
      * rewrite Forall_forall in Hy. apply Hy, Hz.
    + apply ltb_ge in E. constructor; [constructor; assumption|].
      constructor; [exact E|].
      eapply Forall_impl; [|exact Hy]. unfold ranks_before. intros z Hz. lra.
Qed.

Lemma insert_by_score_Permutation x l :
  Permutation (insert_by_score x l) (x :: l).
Proof.
  induction l as [|y l IH]; simpl.
  - reflexivity.
  - destruct (Py.ltb (score x) (score y)).
    + rewrite IH. apply perm_swap.
    + reflexivity.
Qed.

Lemma sort_by_score_Permutation l : Permutation (sort_by_score l) l.
Proof.
  induction l as [|x l IH]; simpl.
  - reflexivity.
  - rewrite insert_by_score_Permutation. constructor. exact IH.
Qed.

(** The scored cohorts that have the score [v]. *)
Definition with_score (v : Q) (l : list ScoredCohort) : list ScoredCohort :=
  filter (fun sc => Qeq_bool (score sc) v) l.

Lemma insert_by_score_with_score v x l :
  with_score v (insert_by_score x l) = with_score v (x :: l).
Proof.
  unfold with_score. induction l as [|y l IH]; [reflexivity|].
  cbn [insert_by_score].
  destruct (Py.ltb (score x) (score y)) eqn:E; [|reflexivity].
  apply ltb_lt in E. cbn [filter] in *. rewrite IH.
  destruct (Qeq_bool (score x) v) eqn:Ex, (Qeq_bool (score y) v) eqn:Ey;
    try reflexivity.
  apply Qeq_bool_iff in Ex, Ey. lra.
Qed.

(** The loop of the scorer under a clock that stands still: the cohorts
    with enough notice, scored, in the order of the catalog. *)
Lemma score_loop_still_clock clock now w_start w_end strategy cohorts :
  (forall t, clock t = now) ->
  forall tick,
    score_loop clock tick cohorts w_start w_end strategy
    = map (fun c => score_cohort c w_start w_end strategy)
          (filter (fun c => negb (Py.ltb (hours_notice w_start now)
                                         (min_notice_hours c)))
                  cohorts).
Proof.
  intros Hclock. induction cohorts as [|c rest IH]; intros tick; simpl.
  - reflexivity.
  - rewrite Hclock, IH.
    destruct (Py.ltb (hours_notice w_start now) (min_notice_hours c)); reflexivity.
Qed.

(** X1: the scorer returns its list in descending order of score: every
    entry has a score at least that of every entry behind it. *)
Theorem score_cohorts_descending (clock : nat -> Z) (tick : nat)
    (cohorts : list Cohort) (w_start w_end : datetime) (strategy : DRStrategy)
    (situation : Situation) :
  StronglySorted ranks_before
    (_score_cohorts clock tick cohorts w_start w_end strategy situation).
Proof.
  unfold _score_cohorts.
  induction (score_loop clock tick cohorts w_start w_end strategy) as [|x l IH].
  - constructor.
  - simpl. apply insert_by_score_sorted, IH.
Qed.

(** X2: the ranking is stable: the scored cohorts that share a score stand
    in the ranking in the order in which the loop met them. *)
Theorem score_cohorts_stable (clock : nat -> Z) (tick : nat)
    (cohorts : list Cohort) (w_start w_end : datetime) (strategy : DRStrategy)
    (situation : Situation) (v : Q) :
  with_score v (_score_cohorts clock tick cohorts w_start w_end strategy situation)
  = with_score v (score_loop clock tick cohorts w_start w_end strategy).
Proof.
  unfold _score_cohorts.
  induction (score_loop clock tick cohorts w_start w_end strategy) as [|x l IH].
  - reflexivity.
  - cbn [sort_by_score fold_right]. fold (sort_by_score l).
    rewrite insert_by_score_with_score.
    unfold with_score in *. cbn [filter]. rewrite IH. reflexivity.
Qed.

(** X3: under a clock that stands still at [now], the scorer returns,
    reordered, exactly the cohorts whose [min_notice_hours] is at most the
    hours from [now] to the window start, each scored once per occurrence in
    the catalog. *)
Theorem score_cohorts_eligible (clock : nat -> Z) (tick : nat)
    (cohorts : list Cohort) (w_start w_end : datetime) (strategy : DRStrategy)
    (situation : Situation) (now : Z) :
  (forall t, clock t = now) ->
  Permutation
    (_score_cohorts clock tick cohorts w_start w_end strategy situation)
    (map (fun c => score_cohort c w_start w_end strategy)
         (filter (fun c => Py.leb (min_notice_hours c) (hours_notice w_start now))
                 cohorts)).
Proof.
  intros Hclock. unfold _score_cohorts.
  rewrite sort_by_score_Permutation.
  rewrite (score_loop_still_clock clock now) by exact Hclock.
  erewrite filter_ext; [reflexivity|].
  intros c. unfold Py.ltb, Py.leb. apply negb_involutive.
Qed.

Lemma score_cohorts_eligible_witness :
  Permutation
    (_score_cohorts clock_at_epoch 0 [cohort_two_days; cohort_ev; cohort_morning]
                    at_2h at_19h EMERGENCY situation_high)
    (map (fun c => score_cohort c at_2h at_19h EMERGENCY)
         (filter (fun c => Py.leb (min_notice_hours c) (hours_notice at_2h 0))
                 [cohort_two_days; cohort_ev; cohort_morning])).
Proof.
  apply score_cohorts_eligible. intros t. reflexivity.
Defined.

(** ** What the scorer computes for one cohort *)

(** The peak alignment of a cohort with a window, as [score_cohort] stores
    it among the factors. *)
Definition window_alignment (c : Cohort) (w_start w_end : datetime) : Q :=
  peak_alignment (factors (score_cohort c w_start w_end BALANCED)).

Lemma score_cohort_alignment c w_start w_end strategy :
  peak_alignment (factors (score_cohort c w_start w_end strategy))
  = window_alignment c w_start w_end.
Proof. reflexivity. Qed.

Lemma score_cohort_available c w_start w_end strategy :
  available_mw (score_cohort c w_start w_end strategy)
  = flex_mw (factors (score_cohort c w_start w_end strategy))
    * window_alignment c w_start w_end * baseline_acceptance_rate c.
Proof. reflexivity. Qed.

Lemma score_cohort_cohort c w_start w_end strategy :
  cohort (score_cohort c w_start w_end strategy) = c.
Proof. reflexivity. Qed.

Lemma len_le {A B} (l : list A) (l' : list B) :
  (List.length l <= List.length l')%nat -> Py.len l <= Py.len l'.
Proof. intros H. unfold Py.len. rewrite <- Zle_Qle. lia. Qed.

Lemma nodup_length_le (l : list Z) :
  (List.length (nodup Z.eq_dec l) <= List.length l)%nat.
Proof.
  induction l as [|x l IH]; simpl; [lia|].
  destruct (in_dec Z.eq_dec x l); simpl; lia.
Qed.

Lemma len_set_inter_le xs ys : len_set_inter xs ys <= Py.len xs.
Proof.
  unfold len_set_inter. apply len_le.
  etransitivity; [apply filter_length_le | apply nodup_length_le].
Qed.

Lemma len_cons_pos {A} (x : A) (l : list A) : 0 < Py.len (x :: l).
Proof. rewrite len_cons. pose proof (len_nonneg l). lra. Qed.

Lemma window_alignment_range c w_start w_end :
  0 <= window_alignment c w_start w_end <= 1.
Proof.
  unfold window_alignment, score_cohort. cbn [factors peak_alignment].
  destruct (range (hour w_start) (hour w_end + 1)) as [|h hs] eqn:E; [lra|].
  pose proof (len_set_inter_le (h :: hs) (peak_hours c)) as Hle.
  pose proof (len_nonneg
                (filter (fun x => existsb (Z.eqb x) (peak_hours c))
                        (nodup Z.eq_dec (h :: hs)))) as H0.
  fold (len_set_inter (h :: hs) (peak_hours c)) in H0.
  pose proof (len_cons_pos h hs) as Hpos.
  set (n := len_set_inter (h :: hs) (peak_hours c)) in *.
  set (d := Py.len (h :: hs)) in *.
  split.
  - apply Qle_shift_div_l; lra.
  - apply Qle_shift_div_r; lra.
Qed.

(** The product of a number with two factors of [0, 1]. *)
Lemma scaled_twice_range x a b :
  0 <= x -> 0 <= a <= 1 -> 0 <= b <= 1 -> 0 <= x * a * b <= x.
Proof.
  intros Hx [Ha0 Ha1] [Hb0 Hb1].
  assert (0 <= x * a) as H1 by (apply Qmult_le_0_compat; assumption).
  assert (x * a <= x) as H2.
  { pose proof (Qmult_le_compat_r a 1 x Ha1 Hx). rewrite (Qmult_comm x a). lra. }
  split.
  - apply Qmult_le_0_compat; assumption.
  - pose proof (Qmult_le_compat_r b 1 (x * a) Hb1 H1).
    rewrite (Qmult_comm (x * a) b). lra.
Qed.

(** X4: the peak alignment that the scorer gives a cohort is in [0, 1];
    for a cohort with a flexible load that is not negative and an
    acceptance rate in [0, 1], the available MW lies between 0 and the
    cohort's flexible MW. *)
Theorem score_cohort_available_range (c : Cohort) (w_start w_end : datetime)
    (strategy : DRStrategy) :
  0 <= peak_alignment (factors (score_cohort c w_start w_end strategy)) <= 1
  /\ (0 <= inject_Z (num_accounts c) * flex_kw_per_account c ->
      0 <= baseline_acceptance_rate c <= 1 ->
      0 <= available_mw (score_cohort c w_start w_end strategy)
      /\ available_mw (score_cohort c w_start w_end strategy)
         <= inject_Z (num_accounts c) * flex_kw_per_account c / 1000).
Proof.
  rewrite score_cohort_alignment, score_cohort_available.
  pose proof (window_alignment_range c w_start w_end) as Hal.
  split; [exact Hal|]. intros Hflex Hrate.
  apply scaled_twice_range; try assumption.
  cbn [flex_mw factors score_cohort].
  apply Qle_shift_div_l; lra.
Qed.

Lemma score_cohort_available_range_witness :
  0 <= available_mw (score_cohort cohort_ev at_17h at_19h RELIABILITY)
  /\ available_mw (score_cohort cohort_ev at_17h at_19h RELIABILITY)
     <= inject_Z (num_accounts cohort_ev) * flex_kw_per_account cohort_ev / 1000.
Proof.
  apply (score_cohort_available_range cohort_ev at_17h at_19h RELIABILITY);
    decide_closed.
Defined.

(** X5: for a cohort with a flexible load that is not negative and an
    acceptance rate in [0, 1], the score is between 0 and 95: at most 30
    for the alignment, 25 for the acceptance, 20 for the flexible MW and 20
    for the strategy. *)
Theorem score_cohort_score_range (c : Cohort) (w_start w_end : datetime)
    (strategy : DRStrategy) :
  0 <= inject_Z (num_accounts c) * flex_kw_per_account c ->
  0 <= baseline_acceptance_rate c <= 1 ->
  0 <= score (score_cohort c w_start w_end strategy) <= 95.
Proof.
  intros Hflex [Hr0 Hr1].
  pose proof (window_alignment_range c w_start w_end) as [Ha0 Ha1].
  unfold window_alignment, score_cohort in Ha0, Ha1.
  cbn [factors peak_alignment] in Ha0, Ha1.
  unfold score_cohort. cbn [score].
  set (al := match range (hour w_start) (hour w_end + 1) with
             | [] => 0
             | _ :: _ => _
             end) in *.
  set (fm := inject_Z (num_accounts c) * flex_kw_per_account c / 1000 / 10).
  assert (0 <= fm) as Hfm.
  { unfold fm. apply Qle_shift_div_l; [lra|]. apply Qle_shift_div_l; lra. }
  pose proof (min_le_r fm 20) as Hm1.
  assert (0 <= Py.min fm 20) as Hm0 by (apply min_glb; lra).
  destruct strategy;
    repeat match goal with
           | |- context [if ?b then _ else _] => destruct b
           end; lra.
Qed.

Lemma score_cohort_score_range_witness :
  0 <= score (score_cohort cohort_ev at_17h at_19h EMERGENCY) <= 95.
Proof.
  apply (score_cohort_score_range cohort_ev at_17h at_19h EMERGENCY);
    decide_closed.
Defined.

(** ** A window whose end hour is before its start hour *)

Lemma range_empty a b : (b <= a)%Z -> range a b = [].
Proof.
  intros H. unfold range. replace (Z.to_nat (b - a)) with 0%nat by lia.
  reflexivity.
Qed.

Lemma window_alignment_backwards c w_start w_end :
  (hour w_end < hour w_start)%Z -> window_alignment c w_start w_end = 0.
Proof.
  intros H. unfold window_alignment, score_cohort. cbn [factors peak_alignment].
  rewrite range_empty by lia. reflexivity.
Qed.

(** Every scored cohort is the scoring of a cohort of the catalog. *)
Lemma score_loop_image clock w_start w_end strategy cohorts :
  forall tick sc,
    In sc (score_loop clock tick cohorts w_start w_end strategy) ->
    exists c, In c cohorts /\ sc = score_cohort c w_start w_end strategy.
Proof.
  induction cohorts as [|c rest IH]; intros tick sc H; simpl in H.
  - contradiction.
  - destruct (Py.ltb _ _).
    + apply IH in H. destruct H as (c' & Hin & ->). exists c'. split; [right|]; tauto.
    + destruct H as [<- | H].
      * exists c. split; [left|]; reflexivity.
      * apply IH in H. destruct H as (c' & Hin & ->). exists c'. split; [right|]; tauto.
Qed.

Lemma score_cohorts_image clock tick cohorts w_start w_end strategy situation sc :
  In sc (_score_cohorts clock tick cohorts w_start w_end strategy situation) ->
  exists c, In c cohorts /\ sc = score_cohort c w_start w_end strategy.
Proof.
  unfold _score_cohorts. intros H. apply (proj1 (sort_by_score_In _ _)) in H.
  eapply score_loop_image, H.
Qed.

(** Every allocation is the entry of a scored cohort of the list, made from
    a running total below a positive target. *)
Lemma allocate_mw_In scs target strategy a :
  In a (_allocate_mw scs target strategy) ->
  exists sc running,
    In sc scs /\ 0 < target /\ running < target
    /\ a = allocation_entry sc (allocate_for sc target running strategy).
Proof.
  intros Ha. destruct (Qlt_le_dec 0 target) as [Ht|Ht].
  - apply In_nth_error in Ha. destruct Ha as [i Hi].
    apply allocate_loop_nth in Hi. destruct Hi as (sc & running & Hsc & Hr & ->).
    exists sc, running. repeat split; try assumption.
    eapply nth_error_In, Hsc.
  - rewrite allocate_mw_nonpositive_target in Ha by exact Ht. contradiction.
Qed.

Lemma sum_all_zero (l : list Q) : Forall (fun x => x == 0) l -> Py.sum l == 0.
Proof.
  induction 1 as [|x l Hx _ IH].
  - apply sum_nil.
  - rewrite sum_cons, Hx, IH. reflexivity.
Qed.


(** A window from 22:00 to 02:00 UTC. *)
Definition at_22h : datetime := mk_datetime (22 * 3600 * 1000000) 0.
Definition at_26h : datetime := mk_datetime (26 * 3600 * 1000000) 0.


(** ** The allocations against the ranking *)

Lemma allocate_for_le_available sc target allocated strategy :
  allocate_for sc target allocated strategy <= available_mw sc.
Proof.
  unfold allocate_for.
  pose proof (min_le_l (available_mw sc) (target - allocated)).
  destruct (DRStrategy_eqb strategy BALANCED); [|assumption].
  pose proof (min_le_l (Py.min (available_mw sc) (target - allocated))
                       (target * (3 # 10))).
  lra.
Qed.

(** What ties an allocation to the scored cohort it was made for. *)
Definition allocation_of (a : Allocation) (sc : ScoredCohort) : Prop :=
  cohort_id a = id (cohort sc)
  /\ cohort_name a = name (cohort sc)
  /\ alloc_num_accounts a = num_accounts (cohort sc)
  /\ target_mw a <= Py.round (available_mw sc) 2.

Lemma allocation_entry_of sc target allocated strategy :
  allocation_of
    (allocation_entry sc (allocate_for sc target allocated strategy)) sc.
Proof.
  repeat split. cbn [target_mw allocation_entry].
  apply round_mono, allocate_for_le_available.
Qed.

Lemma allocate_loop_prefix scs target strategy :
  forall allocated,
    Forall2 allocation_of
      (allocate_loop scs target allocated strategy)
      (firstn (List.length (allocate_loop scs target allocated strategy)) scs).
Proof.
  induction scs as [|sc rest IH]; intros allocated; simpl.
  - constructor.
  - destruct (Py.geb allocated target); simpl.
    + constructor.
    + constructor; [apply allocation_entry_of | apply IH].
Qed.

(** X7: the allocations follow the ranking: the list is as long as some
    leading part of the scored cohorts, and the allocation at each position
    is the one of the scored cohort at that position, with its id, name and
    accounts, and a target of at most the cohort's available MW (rounded to
    two decimals). *)
Theorem allocations_follow_ranking (scored_cohorts : list ScoredCohort)
    (target : Q) (strategy : DRStrategy) :
  (List.length (_allocate_mw scored_cohorts target strategy)
   <= List.length scored_cohorts)%nat
  /\ Forall2 allocation_of
       (_allocate_mw scored_cohorts target strategy)
       (firstn (List.length (_allocate_mw scored_cohorts target strategy))
               scored_cohorts).
Proof.
  pose proof (allocate_loop_prefix scored_cohorts target strategy 0) as H.
  split; [|exact H].
  apply Forall2_length in H. rewrite length_firstn in H.
  unfold _allocate_mw. lia.
Qed.

(** ** How much the greedy loop gives out *)

Lemma round2_lower x : x - (1 # 200) <= Py.round x 2.
Proof.
  pose proof (round_near x 2) as [_ H]. rewrite half_unit_2 in H. lra.
Qed.

(** The rounded targets add up to the advance of the running total, up to
    half a unit of the second decimal per allocation. *)
Lemma allocate_loop_sum_near scs target strategy :
  forall allocated,
    let allocations := allocate_loop scs target allocated strategy in
    let advance := allocated_after scs target allocated strategy - allocated in
    advance - Py.len allocations * (1 # 200)
      <= Py.sum (map target_mw allocations)
    /\ Py.sum (map target_mw allocations)
       <= advance + Py.len allocations * (1 # 200).
Proof.
  induction scs as [|sc rest IH]; intros allocated; cbv zeta; simpl.
  - rewrite sum_nil, len_nil. lra.
  - destruct (Py.geb allocated target).
    + cbn [map]. rewrite sum_nil, len_nil. lra.
    + cbn [map]. rewrite sum_cons, len_cons.
      set (allocate := allocate_for sc target allocated strategy).
      specialize (IH (allocated + allocate)). cbv zeta in IH.
      cbn [target_mw allocation_entry].
      pose proof (round2_upper allocate). pose proof (round2_lower allocate).
      lra.
Qed.

(** The MW that the scored cohorts have available together. *)
Definition total_available (scs : list ScoredCohort) : Q :=
  Py.sum (map available_mw scs).

Lemma total_available_cons sc scs :
  total_available (sc :: scs) == available_mw sc + total_available scs.
Proof. unfold total_available. cbn [map]. apply sum_cons. Qed.

Lemma total_available_nonneg scs :
  Forall (fun sc => 0 <= available_mw sc) scs -> 0 <= total_available scs.
Proof.
  intros H. apply sum_nonneg, Forall_map. exact H.
Qed.

(** Outside the balanced strategy the loop ends with the target, or with
    all that is available when that is less. *)
Lemma allocated_after_greedy scs target strategy :
  strategy <> BALANCED ->
  Forall (fun sc => 0 <= available_mw sc) scs ->
  forall allocated,
    allocated <= target ->
    allocated_after scs target allocated strategy
    == Py.min (allocated + total_available scs) target.
Proof.
  intros Hs Hav. induction Hav as [|sc rest Hsc Hrest IH]; intros allocated Hle.
  - cbn [allocated_after]. unfold total_available. cbn [map]. rewrite sum_nil.
    unfold Py.min. destruct (Qlt_le_dec target (allocated + 0)); lra.
  - cbn [allocated_after]. rewrite total_available_cons.
    pose proof (total_available_nonneg rest Hrest) as Htot.
    destruct (Py.geb allocated target) eqn:E.
    + apply geb_ge in E. unfold Py.min.
      destruct (Qlt_le_dec target (allocated + (available_mw sc + total_available rest)));
        lra.
    + assert (allocate_for sc target allocated strategy
              = Py.min (available_mw sc) (target - allocated)) as Hal.
      { unfold allocate_for. destruct strategy; try reflexivity. congruence. }
      rewrite Hal, IH by (pose proof (min_le_r (available_mw sc) (target - allocated)); lra).
      unfold Py.min.
      destruct (Qlt_le_dec (target - allocated) (available_mw sc));
      destruct (Qlt_le_dec target (allocated + (target - allocated) + total_available rest));
      destruct (Qlt_le_dec target (allocated + available_mw sc + total_available rest));
      destruct (Qlt_le_dec target (allocated + (available_mw sc + total_available rest)));
        lra.
Qed.

(** X8: under every strategy but the balanced one, for a target that is
    not negative and cohorts whose available MW are not negative, the
    targets of the allocations add up to the total target, or to all of the
    available MW when that is less, up to half a unit of the second decimal
    per allocation. *)
Theorem greedy_allocation_total (scored_cohorts : list ScoredCohort) (target : Q)
    (strategy : DRStrategy) :
  strategy <> BALANCED ->
  0 <= target ->
  Forall (fun sc => 0 <= available_mw sc) scored_cohorts ->
  let allocations := _allocate_mw scored_cohorts target strategy in
  let reached := Py.min (total_available scored_cohorts) target in
  reached - Py.len allocations * (1 # 200) <= Py.sum (map target_mw allocations)
  /\ Py.sum (map target_mw allocations) <= reached + Py.len allocations * (1 # 200).
Proof.
  intros Hs Ht Hav. cbv zeta. unfold _allocate_mw.
  pose proof (allocate_loop_sum_near scored_cohorts target strategy 0) as Hsum.
  cbv zeta in Hsum.
  pose proof (allocated_after_greedy scored_cohorts target strategy Hs Hav 0 Ht) as Hg.
  rewrite Hg in Hsum.
  assert (Py.min (0 + total_available scored_cohorts) target
          == Py.min (total_available scored_cohorts) target) as E.
  { apply min_Proper; [ring | reflexivity]. }
  rewrite E in Hsum. lra.
Qed.

Lemma greedy_allocation_total_witness :
  let scs := _score_cohorts clock_at_epoch 0 [cohort_ev; cohort_morning]
                            at_17h at_19h RELIABILITY situation_high in
  let allocations := _allocate_mw scs 3 RELIABILITY in
  let reached := Py.min (total_available scs) 3 in
  reached - Py.len allocations * (1 # 200) <= Py.sum (map target_mw allocations)
  /\ Py.sum (map target_mw allocations) <= reached + Py.len allocations * (1 # 200).
Proof.
  apply greedy_allocation_total.
  - discriminate.
  - lra.
  - repeat constructor; decide_closed.
Defined.

Lemma sum_le_len_bound (l : list Q) (b : Q) :
  Forall (fun x => x <= b) l -> Py.sum l <= Py.len l * b.
Proof.
  induction 1 as [|x l Hx _ IH].
  - rewrite sum_nil, len_nil. lra.
  - rewrite sum_cons, len_cons. lra.
Qed.

Lemma sum_map_le {A} (f g : A -> Q) (l : list A) :
  Forall (fun a => f a <= g a) l -> Py.sum (map f l) <= Py.sum (map g l).
Proof.
  induction 1 as [|a l Ha _ IH]; cbn [map].
  - lra.
  - rewrite !sum_cons. lra.
Qed.



(** ** Plans over a well-formed catalog *)

(** A cohort whose flexible load is not negative and whose acceptance rate
    is a probability. *)
Definition well_formed_cohort (c : Cohort) : Prop :=
  0 <= inject_Z (num_accounts c) * flex_kw_per_account c
  /\ 0 <= baseline_acceptance_rate c <= 1.

Definition select_cohorts (selected : option (list string)) (cohorts : list Cohort)
  : list Cohort :=
  match selected with
  | None | Some [] => cohorts
  | Some sel => filter (fun c => existsb (String.eqb (id c)) sel) cohorts
  end.

Lemma select_cohorts_incl selected cohorts c :
  In c (select_cohorts selected cohorts) -> In c cohorts.
Proof.
  destruct selected as [[|s sel]|]; simpl; try tauto.
  intros H. apply filter_In in H. tauto.
Qed.

(** The plan of [create_plan] on loaded grid data, from its parts. *)
Lemma create_plan_loaded snapshot forecast cohorts clock w_start w_end strategy
    target selected :
  exists situation,
    _analyze_situation (ErcotFiles snapshot forecast) w_start w_end = Ok situation
    /\ let target_total :=
         if falsy target then _calculate_target_mw situation strategy
         else get target 0 in
       let allocations :=
         _allocate_mw
           (_score_cohorts clock 0 (select_cohorts selected cohorts)
                           w_start w_end strategy situation)
           target_total strategy in
       create_plan (ErcotFiles snapshot forecast) cohorts clock w_start w_end
                   strategy target selected
       = Ok {| window_start := w_start;
               window_end := w_end;
               strategy := strategy;
               status := "proposed";
               target_mw_total := target_total;
               predicted_mw_total := Py.sum (map predicted_mw allocations);
               cohort_allocations := allocations;
               confidence_score := _calculate_confidence allocations situation;
               constraints_applied :=
                 _get_applied_constraints
                   (clock (List.length (select_cohorts selected cohorts) + 2)%nat)
                   w_start;
               situation_summary := situation |}.
Proof. eexists. split; reflexivity. Qed.

Lemma allocation_entry_well_formed c w_start w_end strategy target running :
  well_formed_cohort c -> 0 < target -> running < target ->
  let a := allocation_entry (score_cohort c w_start w_end strategy)
             (allocate_for (score_cohort c w_start w_end strategy)
                           target running strategy) in
  0 <= acceptance_probability a <= 1
  /\ 0 <= predicted_mw a
  /\ predicted_mw a <= target_mw a.
Proof.
  intros [Hflex Hrate] Ht Hr. cbv zeta.
  set (sc := score_cohort c w_start w_end strategy).
  assert (0 <= available_mw sc) as Hav.
  { subst sc. rewrite score_cohort_available.
    apply scaled_twice_range;
      [|apply window_alignment_range|exact Hrate].
    cbn [flex_mw factors score_cohort]. apply Qle_shift_div_l; lra. }
  split; [|split].
  - cbn [acceptance_probability allocation_entry].
    subst sc. rewrite score_cohort_alignment, score_cohort_cohort.
    apply round3_range.
    pose proof (window_alignment_range c w_start w_end) as Hal.
    pose proof (scaled_twice_range 1 (baseline_acceptance_rate c)
                  (window_alignment c w_start w_end) ltac:(lra) Hrate Hal).
    lra.
  - cbn [predicted_mw allocation_entry].
    rewrite <- (round_0 2). apply round_mono.
    apply Qmult_le_0_compat; [|apply Hrate].
    apply allocate_for_nonneg; assumption.
  - apply entry_predicted_le_target; assumption.
Qed.



(** ** Plans without allocations *)

Lemma score_loop_none clock w_start w_end strategy cohorts :
  (forall t c, In c cohorts ->
               hours_notice w_start (clock t) < min_notice_hours c) ->
  forall tick, score_loop clock tick cohorts w_start w_end strategy = [].
Proof.
  induction cohorts as [|c rest IH]; intros H tick; simpl.
  - reflexivity.
  - assert (Py.ltb (hours_notice w_start (clock tick)) (min_notice_hours c) = true)
      as -> by (apply ltb_lt, H; left; reflexivity).
    apply IH. intros t c' Hc'. apply H. right. exact Hc'.
Qed.



(** ** The target of a plan *)




(** ** The selection of cohorts *)


(** ** The constraints listed on a plan *)

(** X15: the list of applied constraints always ends with the two fixed
    entries; before them it has "Short notice period" exactly when the
    window starts less than 4 hours after the reading of the clock, and
    "Peak hour window" exactly when the hour of the window start is from 17
    to 20. *)
Theorem applied_constraints_spec (now_us : Z) (w_start : datetime) :
  (exists situational : list string,
      _get_applied_constraints now_us w_start
      = (situational ++ ["Customer comfort limits enforced";
                         "Max weekly events checked"])%list
      /\ (List.length situational <= 2)%nat)
  /\ (In "Short notice period" (_get_applied_constraints now_us w_start)
      <-> hours_notice w_start now_us < 4)
  /\ (In "Peak hour window" (_get_applied_constraints now_us w_start)
      <-> (17 <= hour w_start <= 20)%Z).
Proof.
  unfold _get_applied_constraints.
  destruct (Py.ltb (hours_notice w_start now_us) 4) eqn:En;
    [apply ltb_lt in En | apply ltb_ge in En];
  (destruct ((17 <=? hour w_start)%Z && (hour w_start <=? 20)%Z) eqn:Eh;
    [apply andb_true_iff in Eh; rewrite !Z.leb_le in Eh
    | apply andb_false_iff in Eh; rewrite !Z.leb_gt in Eh]);
  (split; [eexists; split; [rewrite app_assoc; reflexivity | simpl; lia]|]);
  simpl; split; split; intros H;
    repeat match goal with
           | H : _ \/ _ |- _ => destruct H
           | H : _ = _ :> string |- _ => discriminate H
           | H : False |- _ => contradiction
           end;
    try lra; try lia; auto.
Qed.

(** * The plans router of [backend/app/routers/plans.py]

    The endpoints that call the planner and keep its plans: the files under
    [data/plans] and [data/signals] are part of an explicit world that every
    endpoint takes and returns.  What [json.dump] writes is what
    [json.load] reads back. *)

(** ** The loaders of the planner *)

(** The files the planner reads: the two grid files (read together) and the
    cohort catalog; [None] when opening or parsing fails. *)
Record DataFiles : Type := mk_DataFiles {
  ercot_files : option (Snapshot * Forecast);
  cohorts_file : option (list Cohort)
}.

(** [_load_ercot_data]. *)
Definition _load_ercot_data (files : DataFiles) : ErcotData :=
  match ercot_files files with
  | Some (snapshot, forecast) => ErcotFiles snapshot forecast
  | None =>
      ErcotError "ERCOT data not available"
        "Real ERCOT data files not found. Integration with ERCOT API required."
  end.

(** [_load_cohorts]. *)
Definition _load_cohorts (files : DataFiles) : list Cohort :=
  match cohorts_file files with
  | Some cohorts => cohorts
  | None => []
  end.

(** ** Stored plans and signals *)

(** The outcome of an endpoint: the value returned, or the [HTTPException]
    raised to the framework. *)
Inductive Reply (A : Type) : Type :=
  | Returns (a : A)
  | HTTPException (status_code : Z) (detail : string).
Arguments Returns {A} a.
Arguments HTTPException {A} status_code detail.

(** [str(e)] of an exception of the planner: the [repr] of the key. *)
Definition str_exn (e : exn) : string :=
  match e with
  | KeyError key => "'" ++ key ++ "'"
  end.

(** A plan file: the plan of [create_plan] with the two fields made from
    the clock ([id], and the reading behind [created_at]) and what approval
    and rejection add. *)
Record PlanFile : Type := mk_PlanFile {
  plan_id : string;
  created_at : Z;
  plan_body : Plan;
  approved_by : option string;
  approved_at : option Z;
  operator_notes : option string;
  rejected_by : option string;
  rejected_at : option Z;
  rejection_reason : option string
}.

(** The response stored in a signal file, with the keys the status
    endpoint reads. *)
Record SignalResponse : Type := mk_SignalResponse {
  resp_accepted : bool;
  resp_committed_kw : Q
}.

Record Signal : Type := mk_Signal {
  sig_id : string;
  sig_plan_id : string;
  sig_cohort_id : string;
  signal_type : string;
  sig_created_at : Z;
  sig_sent_at : Z;
  event_start : datetime;
  event_end : datetime;
  target_reduction_kw : Q;
  sig_message : Message;
  sig_status : string;
  sig_response : option SignalResponse
}.

(** The directory [data/plans], by plan id, and the directory
    [data/signals], as the list of its files by signal id, each id once. *)
Record World : Type := mk_World {
  data_files : DataFiles;
  plans_dir : string -> option PlanFile;
  signals_dir : list (string * Signal)
}.

(** Writing the file of a plan or of a signal replaces the one of that id. *)
Definition write_plan (dir : string -> option PlanFile) (pf : PlanFile)
  : string -> option PlanFile :=
  fun key => if key =? plan_id pf then Some pf else dir key.

Definition write_signal (dir : list (string * Signal)) (s : Signal)
  : list (string * Signal) :=
  (sig_id s, s) :: filter (fun entry => negb (fst entry =? sig_id s)) dir.

Definition read_signal (dir : list (string * Signal)) (key : string) : option Signal :=
  option_map snd (find (fun entry => fst entry =? key) dir).

(** [plan[key] = value] for the status. *)
Definition with_status (p : Plan) (new_status : string) : Plan :=
  {| window_start := window_start p;
     window_end := window_end p;
     strategy := strategy p;
     status := new_status;
     target_mw_total := target_mw_total p;
     predicted_mw_total := predicted_mw_total p;
     cohort_allocations := cohort_allocations p;
     confidence_score := confidence_score p;
     constraints_applied := constraints_applied p;
     situation_summary := situation_summary p |}.

(** The request body of the propose endpoint ([DRPlanProposal]). *)
Record DRPlanProposal : Type := mk_DRPlanProposal {
  prop_window_start : datetime;
  prop_window_end : datetime;
  prop_strategy : DRStrategy;
  prop_target_mw : option Q;
  prop_selected_cohorts : option (list string);
  prop_operator_id : string
}.

Record ApproveReply : Type := mk_ApproveReply {
  ar_plan_id : string;
  ar_status : string;
  ar_message : string;
  ar_predicted_mw : Q
}.

Record RejectReply : Type := mk_RejectReply {
  rr_plan_id : string;
  rr_status : string;
  rr_message : string
}.

Record StatusReply : Type := mk_StatusReply {
  st_plan_id : string;
  st_status : string;
  st_target_mw : Q;
  st_predicted_mw : Q;
  st_realized_mw : Q;
  st_num_signals_sent : nat;
  st_num_responses : nat;
  st_acceptance_rate : Q
}.

Section PlansRouter.

(** [strftime('%Y%m%d_%H%M%S')] of a reading of the clock, and [str(e)] of
    an [HTTPException] with the given status code and detail: both are the
    libraries' and stay abstract. *)
Variable strftime : Z -> string.
Variable str_http : Z -> string -> string.

(** [propose_plan].  The clock is read by [create_plan]: once per selected
    cohort, then for the [id], for [created_at] and for the constraints. *)
Definition propose_plan (w : World) (proposal : DRPlanProposal) (clock : nat -> Z)
  : World * Reply PlanFile :=
  let files := data_files w in
  match create_plan (_load_ercot_data files) (_load_cohorts files) clock
                    (prop_window_start proposal) (prop_window_end proposal)
                    (prop_strategy proposal) (prop_target_mw proposal)
                    (prop_selected_cohorts proposal) with
  | Raise e => (w, HTTPException 500 (str_exn e))
  | Ok plan =>
      let tick :=
        List.length (select_cohorts (prop_selected_cohorts proposal)
                                    (_load_cohorts files)) in
      let pf := {| plan_id := "DR_" ++ strftime (clock tick);
                   created_at := clock (S tick);
                   plan_body := plan;
                   approved_by := None;
                   approved_at := None;
                   operator_notes := None;
                   rejected_by := None;
                   rejected_at := None;
                   rejection_reason := None |} in
      ({| data_files := files;
          plans_dir := write_plan (plans_dir w) pf;
          signals_dir := signals_dir w |},
       Returns pf)
  end.

(** The loop of [_create_signals]: one signal file per allocation, two
    readings of the clock each. *)
Fixpoint create_signals_loop (pf : PlanFile) (allocations : list Allocation)
    (clock : nat -> Z) (tick : nat) (dir : list (string * Signal))
  : list (string * Signal) :=
  match allocations with
  | [] => dir
  | allocation :: rest =>
      let signal :=
        {| sig_id := "SIG_" ++ plan_id pf ++ "_" ++ cohort_id allocation;
           sig_plan_id := plan_id pf;
           sig_cohort_id := cohort_id allocation;
           signal_type := "dr_event";
           sig_created_at := clock tick;
           sig_sent_at := clock (S tick);
           event_start := window_start (plan_body pf);
           event_end := window_end (plan_body pf);
           target_reduction_kw := target_mw allocation * 1000;
           sig_message := message_template allocation;
           sig_status := "sent";
           sig_response := None |} in
      create_signals_loop pf rest clock (S (S tick)) (write_signal dir signal)
  end.

(** [_create_signals]. *)
Definition _create_signals (pf : PlanFile) (clock : nat -> Z) (tick : nat)
    (dir : list (string * Signal)) : list (string * Signal) :=
  create_signals_loop pf (cohort_allocations (plan_body pf)) clock tick dir.

(** [if notes:] keeps a note that is neither absent nor empty. *)
Definition given_notes (notes : option string) : option string :=
  match notes with
  | Some "" | None => None
  | Some text => Some text
  end.

(** [approve_plan].  The 404 raised for an unknown plan is caught by the
    endpoint's own handler and raised again as a 500. *)
Definition approve_plan (w : World) (id : string) (operator_id : string)
    (notes : option string) (clock : nat -> Z) : World * Reply ApproveReply :=
  match plans_dir w id with
  | None => (w, HTTPException 500 (str_http 404 "Plan not found"))
  | Some pf =>
      let pf' := {| plan_id := plan_id pf;
                    created_at := created_at pf;
                    plan_body := with_status (plan_body pf) "approved";
                    approved_by := Some operator_id;
                    approved_at := Some (clock 0%nat);
                    operator_notes :=
                      match given_notes notes with
                      | Some text => Some text
                      | None => operator_notes pf
                      end;
                    rejected_by := rejected_by pf;
                    rejected_at := rejected_at pf;
                    rejection_reason := rejection_reason pf |} in
      ({| data_files := data_files w;
          plans_dir := fun key => if key =? id then Some pf' else plans_dir w key;
          signals_dir := _create_signals pf' clock 1 (signals_dir w) |},
       Returns {| ar_plan_id := id;
                  ar_status := "approved";
                  ar_message := "Plan approved and signals dispatched";
                  ar_predicted_mw := predicted_mw_total (plan_body pf') |})
  end.

(** [reject_plan]. *)
Definition reject_plan (w : World) (id : string) (operator_id reason : string)
    (clock : nat -> Z) : World * Reply RejectReply :=
  match plans_dir w id with
  | None => (w, HTTPException 500 (str_http 404 "Plan not found"))
  | Some pf =>
      let pf' := {| plan_id := plan_id pf;
                    created_at := created_at pf;
                    plan_body := with_status (plan_body pf) "rejected";
                    approved_by := approved_by pf;
                    approved_at := approved_at pf;
                    operator_notes := operator_notes pf;
                    rejected_by := Some operator_id;
                    rejected_at := Some (clock 0%nat);
                    rejection_reason := Some reason |} in
      ({| data_files := data_files w;
          plans_dir := fun key => if key =? id then Some pf' else plans_dir w key;
          signals_dir := signals_dir w |},
       Returns {| rr_plan_id := id;
                  rr_status := "rejected";
                  rr_message := "Plan rejected" |})
  end.

(** [get_plan]. *)
Definition get_plan (w : World) (id : string) : Reply PlanFile :=
  match plans_dir w id with
  | None => HTTPException 500 (str_http 404 "Plan not found")
  | Some pf => Returns pf
  end.

(** The responses of the signal files that [glob(f"{plan_id}_*.json")]
    finds: the files whose name begins with the plan id and an underscore
    (for a plan id free of wildcard characters), that have a response. *)
Definition plan_responses (dir : list (string * Signal)) (id : string)
  : list SignalResponse :=
  flat_map (fun entry =>
              if prefix (id ++ "_") (fst entry) then
                match sig_response (snd entry) with
                | Some r => [r]
                | None => []
                end
              else [])
           dir.

(** [get_plan_status]. *)
Definition get_plan_status (w : World) (id : string) : Reply StatusReply :=
  match get_plan w id with
  | HTTPException code detail => HTTPException 500 (str_http code detail)
  | Returns pf =>
      let responses := plan_responses (signals_dir w) id in
      let realized_mw :=
        Py.sum (map (fun r => resp_committed_kw r / 1000) responses) in
      Returns
        {| st_plan_id := id;
           st_status := status (plan_body pf);
           st_target_mw := target_mw_total (plan_body pf);
           st_predicted_mw := predicted_mw_total (plan_body pf);
           st_realized_mw := Py.round realized_mw 2;
           st_num_signals_sent := List.length (cohort_allocations (plan_body pf));
           st_num_responses := List.length responses;
           st_acceptance_rate :=
             match responses with
             | [] => 0
             | _ => Py.len (filter resp_accepted responses) / Py.len responses
             end |}
  end.

(** ** Properties of the plans router *)

(** The signal written for one allocation. *)
Definition signal_for (pf : PlanFile) (allocation : Allocation) (clock : nat -> Z)
    (tick : nat) : Signal :=
  {| sig_id := "SIG_" ++ plan_id pf ++ "_" ++ cohort_id allocation;
     sig_plan_id := plan_id pf;
     sig_cohort_id := cohort_id allocation;
     signal_type := "dr_event";
     sig_created_at := clock tick;
     sig_sent_at := clock (S tick);
     event_start := window_start (plan_body pf);
     event_end := window_end (plan_body pf);
     target_reduction_kw := target_mw allocation * 1000;
     sig_message := message_template allocation;
     sig_status := "sent";
     sig_response := None |}.

Lemma create_signals_loop_cons pf a rest clock tick dir :
  create_signals_loop pf (a :: rest) clock tick dir
  = create_signals_loop pf rest clock (S (S tick))
      (write_signal dir (signal_for pf a clock tick)).
Proof. reflexivity. Qed.

Lemma read_write_signal dir s key :
  read_signal (write_signal dir s) key
  = if key =? sig_id s then Some s else read_signal dir key.
Proof.
  unfold read_signal, write_signal. cbn [find fst].
  rewrite (String.eqb_sym (sig_id s) key).
  destruct (key =? sig_id s) eqn:E; [reflexivity|]. f_equal.
  induction dir as [|[k v] dir IH]; [reflexivity|]. cbn [filter find fst].
  destruct (k =? sig_id s) eqn:Ek; cbn [negb find fst].
  - apply String.eqb_eq in Ek. subst k.
    rewrite (String.eqb_sym (sig_id s) key), E. exact IH.
  - destruct (k =? key); [reflexivity | exact IH].
Qed.

Lemma write_signal_names dir s (P : string -> Prop) :
  P (sig_id s) ->
  Forall (fun entry => P (fst entry)) dir ->
  Forall (fun entry => P (fst entry)) (write_signal dir s).
Proof.
  intros Hs Hdir. unfold write_signal. constructor; [exact Hs|].
  apply Forall_forall. intros e He. apply filter_In in He.
  rewrite Forall_forall in Hdir. apply Hdir, He.
Qed.

(** A signal of the plan [pf] for one of the given allocations. *)
Definition signal_of_plan (pf : PlanFile) (allocations : list Allocation)
    (s : Signal) : Prop :=
  exists allocation,
    In allocation allocations
    /\ sig_id s = "SIG_" ++ plan_id pf ++ "_" ++ cohort_id allocation
    /\ sig_plan_id s = plan_id pf
    /\ sig_cohort_id s = cohort_id allocation
    /\ target_reduction_kw s = target_mw allocation * 1000
    /\ sig_message s = message_template allocation
    /\ sig_status s = "sent"
    /\ sig_response s = None.

Lemma signal_for_of_plan pf allocations a clock tick :
  In a allocations -> signal_of_plan pf allocations (signal_for pf a clock tick).
Proof. intros H. exists a. repeat split. exact H. Qed.

(** The loop keeps, under a name, a signal of the plan once there is one. *)
Lemma create_signals_loop_keeps pf all clock key :
  forall rest tick dir,
    incl rest all ->
    (exists s, read_signal dir key = Some s /\ sig_id s = key
               /\ signal_of_plan pf all s) ->
    exists s, read_signal (create_signals_loop pf rest clock tick dir) key = Some s
              /\ sig_id s = key
              /\ signal_of_plan pf all s.
Proof.
  induction rest as [|a rest IH]; intros tick dir Hincl Hs; [exact Hs|].
  rewrite create_signals_loop_cons. apply IH.
  - intros x Hx. apply Hincl. right. exact Hx.
  - rewrite read_write_signal.
    destruct (key =? sig_id (signal_for pf a clock tick)) eqn:E; [|exact Hs].
    apply String.eqb_eq in E.
    eexists. split; [reflexivity|]. split; [symmetry; exact E|].
    apply signal_for_of_plan, Hincl. left. reflexivity.
Qed.

Lemma create_signals_loop_writes pf all clock :
  forall rest tick dir a,
    incl rest all -> In a rest ->
    exists s,
      read_signal (create_signals_loop pf rest clock tick dir)
                  ("SIG_" ++ plan_id pf ++ "_" ++ cohort_id a) = Some s
      /\ sig_id s = "SIG_" ++ plan_id pf ++ "_" ++ cohort_id a
      /\ signal_of_plan pf all s.
Proof.
  induction rest as [|b rest IH]; intros tick dir a Hincl Ha; [contradiction|].
  rewrite create_signals_loop_cons. destruct Ha as [-> | Ha].
  - apply create_signals_loop_keeps.
    + intros x Hx. apply Hincl. right. exact Hx.
    + rewrite read_write_signal. cbn [sig_id signal_for].
      rewrite String.eqb_refl. eexists. split; [reflexivity|].
      split; [reflexivity|].
      apply signal_for_of_plan, Hincl. left. reflexivity.
  - apply IH; [|exact Ha]. intros x Hx. apply Hincl. right. exact Hx.
Qed.

Lemma create_signals_loop_names pf clock (P : string -> Prop) :
  (forall a, P ("SIG_" ++ plan_id pf ++ "_" ++ cohort_id a)) ->
  forall rest tick dir,
    Forall (fun entry => P (fst entry)) dir ->
    Forall (fun entry => P (fst entry))
           (create_signals_loop pf rest clock tick dir).
Proof.
  intros HP. induction rest as [|a rest IH]; intros tick dir Hdir; [exact Hdir|].
  rewrite create_signals_loop_cons. apply IH, write_signal_names; [|exact Hdir].
  apply HP.
Qed.

Lemma prefix_append (s t : string) : prefix s (s ++ t) = true.
Proof.
  induction s as [|a s IH]; [destruct t; reflexivity|]. cbn [append prefix].
  destruct (ascii_dec a a); [exact IH | congruence].
Qed.

(** X16: when the grid files cannot be read, the propose endpoint answers
    with status 500 and the detail ['snapshot'] (the text of the planner's
    [KeyError]), and stores nothing. *)
Theorem propose_plan_without_grid_data (w : World) (proposal : DRPlanProposal)
    (clock : nat -> Z) :
  ercot_files (data_files w) = None ->
  propose_plan w proposal clock = (w, HTTPException 500 "'snapshot'").
Proof.
  intros H. unfold propose_plan, _load_ercot_data. rewrite H. reflexivity.
Qed.



(** X19: approval and rejection only change the status and the approval or
    rejection fields of a stored plan, never its target, allocations or
    confidence, and neither looks at the status the plan has: a plan that
    was approved can still be rejected, and then reads as rejected while it
    keeps its approver. *)
Theorem approve_then_reject (w : World) (id approver rejecter reason : string)
    (notes : option string) (clock1 clock2 : nat -> Z) (pf : PlanFile) :
  plans_dir w id = Some pf ->
  let w1 := fst (approve_plan w id approver notes clock1) in
  let w2 := fst (reject_plan w1 id rejecter reason clock2) in
  exists pf1 pf2,
    get_plan w1 id = Returns pf1
    /\ get_plan w2 id = Returns pf2
    /\ status (plan_body pf1) = "approved"
    /\ approved_by pf1 = Some approver
    /\ status (plan_body pf2) = "rejected"
    /\ approved_by pf2 = Some approver
    /\ rejected_by pf2 = Some rejecter
    /\ rejection_reason pf2 = Some reason
    /\ (forall pf', pf' = pf1 \/ pf' = pf2 ->
          plan_id pf' = plan_id pf
          /\ cohort_allocations (plan_body pf') = cohort_allocations (plan_body pf)
          /\ target_mw_total (plan_body pf') = target_mw_total (plan_body pf)
          /\ predicted_mw_total (plan_body pf') = predicted_mw_total (plan_body pf)
          /\ confidence_score (plan_body pf') = confidence_score (plan_body pf)).
Proof.
  intros H. cbv zeta. unfold approve_plan. rewrite H. cbn [fst].
  unfold reject_plan. cbn [plans_dir]. rewrite String.eqb_refl. cbn [fst].
  unfold get_plan. cbn [plans_dir]. rewrite String.eqb_refl.
  eexists. eexists. split; [reflexivity|]. split; [reflexivity|].
  do 6 (split; [reflexivity|]).
  intros pf' [-> | ->]; repeat split.
Qed.

Lemma append_inj_r (s t1 t2 : string) : s ++ t1 = s ++ t2 -> t1 = t2.
Proof.
  induction s as [|a s IH]; cbn [append]; intros H; [exact H|].
  injection H as H. apply IH, H.
Qed.

(** X20: approving a stored plan writes, for every allocation of the plan,
    a signal file named [SIG_<plan id>_<cohort id>]: a signal of that plan
    and cohort, in status sent and without a response, whose target
    reduction in kW is 1000 times the target MW of an allocation of that
    cohort. *)
Theorem approve_plan_sends_signals (w : World) (id operator_id : string)
    (notes : option string) (clock : nat -> Z) (pf : PlanFile) (a : Allocation) :
  plans_dir w id = Some pf ->
  In a (cohort_allocations (plan_body pf)) ->
  exists s,
    read_signal (signals_dir (fst (approve_plan w id operator_id notes clock)))
                ("SIG_" ++ plan_id pf ++ "_" ++ cohort_id a) = Some s
    /\ sig_plan_id s = plan_id pf
    /\ sig_cohort_id s = cohort_id a
    /\ sig_status s = "sent"
    /\ sig_response s = None
    /\ exists a', In a' (cohort_allocations (plan_body pf))
                  /\ cohort_id a' = cohort_id a
                  /\ target_reduction_kw s = target_mw a' * 1000.
Proof.
  intros H Ha. unfold approve_plan. rewrite H. cbn [fst signals_dir].
  unfold _create_signals. cbn [plan_body with_status cohort_allocations].
  match goal with
  | |- context [create_signals_loop ?p _ _ _ _] => set (pf' := p)
  end.
  destruct (create_signals_loop_writes pf' (cohort_allocations (plan_body pf))
              clock (cohort_allocations (plan_body pf)) 1%nat (signals_dir w) a
              (incl_refl _) Ha) as (s & Hread & Hid & Hof).
  change (plan_id pf') with (plan_id pf) in Hread, Hid.
  exists s. split; [exact Hread|].
  destruct Hof as (a' & Ha' & Hid' & Hplan & Hcohort & Hkw & _ & Hstatus & Hresp).
  change (plan_id pf') with (plan_id pf) in Hid', Hplan.
  assert (cohort_id a' = cohort_id a) as Hsame.
  { rewrite Hid in Hid'. do 3 apply append_inj_r in Hid'. symmetry. exact Hid'. }
  repeat split; try assumption; try congruence.
  exists a'. repeat split; assumption.
Qed.

Lemma first_char_differs (a b : ascii) (s t u : string) :
  a <> b ->
  prefix (String a s) u = true -> prefix (String b t) u = true -> False.
Proof.
  intros Hab H1 H2. destruct u as [|c u]; [discriminate H1|].
  cbn [prefix] in H1, H2.
  destruct (ascii_dec a c); [|discriminate H1].
  destruct (ascii_dec b c); [|discriminate H2]. congruence.
Qed.

Lemma plan_responses_none dir id :
  prefix "DR_" id = true ->
  Forall (fun entry => prefix "SIG_" (fst entry) = true) dir ->
  plan_responses dir id = [].
Proof.
  intros Hid Hdir. unfold plan_responses.
  induction Hdir as [|[k s] dir Hk _ IH]; [reflexivity|].
  cbn [flat_map fst snd]. rewrite IH.
  destruct (prefix (id ++ "_") k) eqn:E; [exfalso|reflexivity].
  destruct id as [|c id]; [discriminate Hid|].
  cbn [prefix] in Hid. destruct (ascii_dec "D" c) as [<-|]; [|discriminate Hid].
  cbn [append] in E. cbn [fst] in Hk.
  eapply (first_char_differs "S" "D"); [discriminate | exact Hk | exact E].
Qed.

(** X21: the status endpoint never finds the signals that approval sends.
    Approval keeps every signal file under a name that begins with [SIG_];
    and for a stored plan whose id begins with [DR_] (as the ids given by
    the propose endpoint do), over signal files so named, the status
    endpoint reports zero responses, zero realized MW and an acceptance rate
    of zero, whatever responses those files hold. *)
Theorem status_misses_sent_signals (w : World) (id operator_id : string)
    (notes : option string) (clock : nat -> Z) (pf : PlanFile) :
  plans_dir w id = Some pf ->
  Forall (fun entry => prefix "SIG_" (fst entry) = true) (signals_dir w) ->
  Forall (fun entry => prefix "SIG_" (fst entry) = true)
         (signals_dir (fst (approve_plan w id operator_id notes clock)))
  /\ (prefix "DR_" id = true ->
      exists r,
        get_plan_status w id = Returns r
        /\ st_num_signals_sent r = List.length (cohort_allocations (plan_body pf))
        /\ st_num_responses r = 0%nat
        /\ st_realized_mw r == 0
        /\ st_acceptance_rate r = 0).
Proof.
  intros H Hdir. split.
  - unfold approve_plan. rewrite H. cbn [fst signals_dir].
    unfold _create_signals.
    apply (create_signals_loop_names _ clock
             (fun name => prefix "SIG_" name = true)); [|exact Hdir].
    intros a. apply (prefix_append "SIG_").
  - intros Hid. unfold get_plan_status, get_plan. rewrite H.
    rewrite (plan_responses_none _ _ Hid Hdir).
    eexists. split; [reflexivity|].
    cbn [st_num_signals_sent st_num_responses st_realized_mw st_acceptance_rate
         map List.length].
    repeat split.
Qed.

Lemma plan_responses_length dir id :
  (List.length (plan_responses dir id) <= List.length dir)%nat.
Proof.
  unfold plan_responses. induction dir as [|[k s] dir IH]; [simpl; lia|].
  cbn [flat_map fst snd]. rewrite length_app.
  destruct (prefix (id ++ "_") k); [destruct (sig_response s)|]; simpl; lia.
Qed.

(** X22: for a stored plan the status endpoint answers with the plan's
    status and totals, an acceptance rate in [0, 1], and a number of
    responses that is at most the number of signal files. *)
Theorem get_plan_status_bounds (w : World) (id : string) (pf : PlanFile) :
  plans_dir w id = Some pf ->
  exists r,
    get_plan_status w id = Returns r
    /\ st_status r = status (plan_body pf)
    /\ st_target_mw r = target_mw_total (plan_body pf)
    /\ st_predicted_mw r = predicted_mw_total (plan_body pf)
    /\ 0 <= st_acceptance_rate r <= 1
    /\ (st_num_responses r <= List.length (signals_dir w))%nat.
Proof.
  intros H. unfold get_plan_status, get_plan. rewrite H.
  eexists. split; [reflexivity|].
  cbn [st_status st_target_mw st_predicted_mw st_acceptance_rate st_num_responses].
  repeat split; try apply plan_responses_length;
    destruct (plan_responses (signals_dir w) id) as [|r rs]; try lra.
  - apply Qle_shift_div_l; [apply len_cons_pos|].
    rewrite Qmult_0_l. apply len_nonneg.
  - apply Qle_shift_div_r; [apply len_cons_pos|].
    rewrite Qmult_1_l. apply len_le, filter_length_le.
Qed.

End PlansRouter.

(** *** Concrete worlds for the router *)

(** A rendering of the clock that always gives 17:00 on the first day of
    the epoch, and a rendering of an [HTTPException] as ["<code>: <detail>"]
    for the two codes of this router. *)
Definition strftime_17h : Z -> string := fun _ => "19700101_170000".

Definition str_status_detail (code : Z) (detail : string) : string :=
  (if (code =? 404)%Z then "404: " else "500: ") ++ detail.

Definition files_without_grid : DataFiles :=
  {| ercot_files := None; cohorts_file := Some [cohort_ev; cohort_morning] |}.

Definition files_ready : DataFiles :=
  {| ercot_files := Some (mk_Snapshot (Some 72000) (Some 60) (Some 6000),
                          mk_Forecast (Some 76000) (Some 18));
     cohorts_file := Some [cohort_ev; cohort_morning] |}.

Definition world_without_grid : World :=
  {| data_files := files_without_grid;
     plans_dir := fun _ => None;
     signals_dir := [] |}.

Definition world_ready : World :=
  {| data_files := files_ready;
     plans_dir := fun _ => None;
     signals_dir := [] |}.

Definition proposal_evening : DRPlanProposal :=
  {| prop_window_start := at_17h;
     prop_window_end := at_19h;
     prop_strategy := RELIABILITY;
     prop_target_mw := None;
     prop_selected_cohorts := None;
     prop_operator_id := "operator_1" |}.

(** A stored plan with two allocations, and a world that holds it. *)
Definition plan_evening : Plan :=
  let allocations :=
    _allocate_mw
      (_score_cohorts clock_at_epoch 0 [cohort_ev; cohort_morning]
                      at_17h at_19h RELIABILITY situation_high)
      100 RELIABILITY in
  {| window_start := at_17h;
     window_end := at_19h;
     strategy := RELIABILITY;
     status := "proposed";
     target_mw_total := 100;
     predicted_mw_total := Py.sum (map predicted_mw allocations);
     cohort_allocations := allocations;
     confidence_score := _calculate_confidence allocations situation_high;
     constraints_applied := _get_applied_constraints 0 at_17h;
     situation_summary := situation_high |}.

Definition plan_file_evening : PlanFile :=
  {| plan_id := "DR_19700101_170000";
     created_at := 0;
     plan_body := plan_evening;
     approved_by := None;
     approved_at := None;
     operator_notes := None;
     rejected_by := None;
     rejected_at := None;
     rejection_reason := None |}.

Definition world_with_plan : World :=
  {| data_files := files_ready;
     plans_dir := write_plan (fun _ => None) plan_file_evening;
     signals_dir := [] |}.

(** The signal that approval wrote for the EV cohort, after a response of
    2500 kW was stored in it. *)
Definition signal_ev_responded : Signal :=
  {| sig_id := "SIG_DR_19700101_170000_ev_1";
     sig_plan_id := "DR_19700101_170000";
     sig_cohort_id := "ev_1";
     signal_type := "dr_event";
     sig_created_at := 0;
     sig_sent_at := 0;
     event_start := at_17h;
     event_end := at_19h;
     target_reduction_kw := 5000;
     sig_message := MsgResidentialEV 5;
     sig_status := "acknowledged";
     sig_response := Some {| resp_accepted := true; resp_committed_kw := 2500 |} |}.

Definition world_responded : World :=
  {| data_files := files_ready;
     plans_dir := write_plan (fun _ => None) plan_file_evening;
     signals_dir := [("SIG_DR_19700101_170000_ev_1", signal_ev_responded)] |}.

Example plan_evening_allocations :
  map cohort_id (cohort_allocations plan_evening) = ["ev_1"; "hvac_1"].
Proof. reflexivity. Qed.

Lemma propose_plan_without_grid_data_witness :
  propose_plan strftime_17h world_without_grid proposal_evening clock_at_epoch
  = (world_without_grid, HTTPException 500 "'snapshot'").
Proof.
  apply propose_plan_without_grid_data. reflexivity.
Defined.



Lemma approve_then_reject_witness :
  let w1 := fst (approve_plan str_status_detail world_with_plan
                   "DR_19700101_170000" "operator_1" (Some "go") clock_at_epoch) in
  let w2 := fst (reject_plan str_status_detail w1 "DR_19700101_170000"
                   "operator_2" "too late" clock_at_epoch) in
  exists pf1 pf2,
    get_plan str_status_detail w1 "DR_19700101_170000" = Returns pf1
    /\ get_plan str_status_detail w2 "DR_19700101_170000" = Returns pf2
    /\ status (plan_body pf1) = "approved"
    /\ approved_by pf1 = Some "operator_1"
    /\ status (plan_body pf2) = "rejected"
    /\ approved_by pf2 = Some "operator_1"
    /\ rejected_by pf2 = Some "operator_2"
    /\ rejection_reason pf2 = Some "too late"
    /\ (forall pf', pf' = pf1 \/ pf' = pf2 ->
          plan_id pf' = plan_id plan_file_evening
          /\ cohort_allocations (plan_body pf')
             = cohort_allocations (plan_body plan_file_evening)
          /\ target_mw_total (plan_body pf')
             = target_mw_total (plan_body plan_file_evening)
          /\ predicted_mw_total (plan_body pf')
             = predicted_mw_total (plan_body plan_file_evening)
          /\ confidence_score (plan_body pf')
             = confidence_score (plan_body plan_file_evening)).
Proof.
  apply (approve_then_reject str_status_detail world_with_plan
           "DR_19700101_170000" "operator_1" "operator_2" "too late" (Some "go")
           clock_at_epoch clock_at_epoch plan_file_evening).
  reflexivity.
Defined.

(** The allocation of [plan_evening] for the EV cohort. *)
Definition allocation_ev : Allocation :=
  allocation_entry
    (score_cohort cohort_ev at_17h at_19h RELIABILITY)
    (allocate_for (score_cohort cohort_ev at_17h at_19h RELIABILITY)
                  100 0 RELIABILITY).

Lemma approve_plan_sends_signals_witness :
  exists s,
    read_signal
      (signals_dir (fst (approve_plan str_status_detail world_with_plan
                           "DR_19700101_170000" "operator_1" None clock_at_epoch)))
      ("SIG_" ++ plan_id plan_file_evening ++ "_" ++ cohort_id allocation_ev)
    = Some s
    /\ sig_plan_id s = plan_id plan_file_evening
    /\ sig_cohort_id s = cohort_id allocation_ev
    /\ sig_status s = "sent"
    /\ sig_response s = None
    /\ exists a', In a' (cohort_allocations (plan_body plan_file_evening))
                  /\ cohort_id a' = cohort_id allocation_ev
                  /\ target_reduction_kw s = target_mw a' * 1000.
Proof.
  apply (approve_plan_sends_signals str_status_detail world_with_plan
           "DR_19700101_170000" "operator_1" None clock_at_epoch
           plan_file_evening allocation_ev).
  - reflexivity.
  - left. reflexivity.
Defined.

Lemma status_misses_sent_signals_witness :
  exists r,
    get_plan_status str_status_detail world_responded "DR_19700101_170000"
    = Returns r
    /\ st_num_signals_sent r
       = List.length (cohort_allocations (plan_body plan_file_evening))
    /\ st_num_responses r = 0%nat
    /\ st_realized_mw r == 0
    /\ st_acceptance_rate r = 0.
Proof.
  apply (status_misses_sent_signals str_status_detail world_responded
           "DR_19700101_170000" "operator_1" None clock_at_epoch
           plan_file_evening).
  - reflexivity.
  - repeat constructor.
  - reflexivity.
Defined.

Lemma get_plan_status_bounds_witness :
  exists r,
    get_plan_status str_status_detail world_responded "DR_19700101_170000"
    = Returns r
    /\ st_status r = status (plan_body plan_file_evening)
    /\ st_target_mw r = target_mw_total (plan_body plan_file_evening)
    /\ st_predicted_mw r = predicted_mw_total (plan_body plan_file_evening)
    /\ 0 <= st_acceptance_rate r <= 1
    /\ (st_num_responses r <= List.length (signals_dir world_responded))%nat.
Proof.
  apply (get_plan_status_bounds str_status_detail world_responded
           "DR_19700101_170000" plan_file_evening).
  reflexivity.
Defined.

(** * The strategy bonus of the scorer *)

Lemma prefix_iff (needle hay : string) :
  prefix needle hay = true <-> exists post, hay = needle ++ post.
Proof.
  revert hay. induction needle as [|a needle IH]; intros hay.
  - split; [intros _; exists hay; reflexivity | intros _; destruct hay; reflexivity].
  - destruct hay as [|b hay]; cbn [prefix append].
    + split; [discriminate | intros [post H]; discriminate H].
    + destruct (ascii_dec a b) as [<-|Hab].
      * rewrite IH. split; intros [post H]; exists post; congruence.
      * split; [discriminate | intros [post H]; congruence].
Qed.

(** [contains] is the substring test. *)
Lemma contains_iff (needle hay : string) :
  contains needle hay = true <-> exists pre post, hay = pre ++ needle ++ post.
Proof.
  split.
  - induction hay as [|c hay IH]; cbn [contains]; rewrite orb_true_iff.
    + intros [H | H]; [|discriminate H].
      apply prefix_iff in H. destruct H as [post H]. exists "", post. exact H.
    + intros [H | H].
      * apply prefix_iff in H. destruct H as [post H]. exists "", post. exact H.
      * destruct (IH H) as (pre & post & ->). exists (String c pre), post.
        reflexivity.
  - intros (pre & post & ->). induction pre as [|c pre IH].
    + cbn [append]. destruct (needle ++ post) eqn:E; cbn [contains];
        rewrite orb_true_iff; left; apply prefix_iff; exists post; symmetry; exact E.
    + cbn [append contains]. rewrite IH. apply orb_true_r.
Qed.

(** The segment names the word as a substring. *)
Definition segment_has (c : Cohort) (word : string) : Prop :=
  exists pre post, segment c = pre ++ word ++ post.

(** X23: the strategy only adds a bonus to the score a cohort has under the
    balanced strategy: 15 under cost_minimize exactly when the segment has
    "commercial" or "industrial" as a substring, 15 times the acceptance
    rate under reliability, 20 under emergency exactly when the cohort asks
    for at most one hour of notice; the factors and the available MW do not
    depend on the strategy. *)
Theorem strategy_bonus (c : Cohort) (w_start w_end : datetime) (strategy : DRStrategy) :
  let balanced := score_cohort c w_start w_end BALANCED in
  let scored := score_cohort c w_start w_end strategy in
  factors scored = factors balanced
  /\ available_mw scored = available_mw balanced
  /\ match strategy with
     | BALANCED => score scored == score balanced
     | RELIABILITY =>
         score scored == score balanced + 15 * baseline_acceptance_rate c
     | COST_MINIMIZE =>
         (segment_has c "commercial" \/ segment_has c "industrial" ->
          score scored == score balanced + 15)
         /\ (~ (segment_has c "commercial" \/ segment_has c "industrial") ->
             score scored == score balanced)
     | EMERGENCY =>
         (min_notice_hours c <= 1 -> score scored == score balanced + 20)
         /\ (1 < min_notice_hours c -> score scored == score balanced)
     end.
Proof.
  cbv zeta. split; [reflexivity|]. split; [reflexivity|].
  unfold segment_has. destruct strategy; unfold score_cohort; cbn [score].
  - rewrite <- !contains_iff, <- orb_true_iff.
    destruct (contains "commercial" (segment c) || contains "industrial" (segment c)).
    + split; [reflexivity | intros H; exfalso; apply H; reflexivity].
    + split; [discriminate | reflexivity].
  - ring.
  - reflexivity.
  - destruct (Py.leb (min_notice_hours c) 1) eqn:E;
      [apply leb_le in E | apply leb_gt in E];
      split; intros H; try reflexivity; lra.
Qed.

Lemma strategy_bonus_witness :
  score (score_cohort cohort_morning at_17h at_19h COST_MINIMIZE)
  == score (score_cohort cohort_morning at_17h at_19h BALANCED) + 15.
Proof.
  apply (strategy_bonus cohort_morning at_17h at_19h COST_MINIMIZE).
  left. exists "", "_hvac". reflexivity.
Defined.
